(** * export_gff3_feature: extraction of one annotated feature from a GFF3
      file with an embedded FASTA block

    Shallow embedding of [src/export_gff3_feature.py]: [parse_gff3],
    [get_sequence], [reverse_complement] and [format_fasta], together with
    the Python string, slice, range and dictionary operations they rely on.

    Conventions of the embedding.
    - A Python [str] is a [string]; a character is a code point below 256.
    - A [dict] keyed by strings is a [gmap string _].
    - A Python exception is a value [Raise e] of the type [result]; the
      constructors of [exn] are the built-in exception classes the program
      can raise. *)

From Stdlib Require Import ZArith Ascii String List Lia Bool.
From stdpp Require Import base option list strings gmap.

Local Open Scope string_scope.
Local Open Scope Z_scope.

(** ** Exceptions and results *)

Inductive exn : Type :=
| KeyError (key : option string)   (* [d[k]] with [k] absent; [None] is Python's None *)
| IndexError                       (* [l[0]] on an empty list *)
| ValueError.                      (* unpacking, [int()], [range()] with step 0 *)

(** The name of the class of an exception. *)
Definition exception_class (e : exn) : string :=
  match e with
  | KeyError _ => "KeyError"
  | IndexError => "IndexError"
  | ValueError => "ValueError"
  end.

Inductive result (A : Type) : Type :=
| Ok (a : A)
| Raise (e : exn).

Arguments Ok {A} a.
Arguments Raise {A} e.

Definition bind {A B : Type} (r : result A) (k : A -> result B) : result B :=
  match r with
  | Ok a => k a
  | Raise e => Raise e
  end.

Notation "'do' x <- r ; k" := (bind r (fun x => k))
  (at level 10, x name, r at level 100, k at level 200).

(** Evaluation of [f] on the items of a list, left to right, stopping at the
    first exception: a comprehension or a generator consumed by [join]. *)
Fixpoint map_result {A B : Type} (f : A -> result B) (l : list A) : result (list B) :=
  match l with
  | [] => Ok []
  | a :: l' => do b <- f a; do bs <- map_result f l'; Ok (b :: bs)
  end.

(** A [for] loop threading a state, stopping at the first exception. *)
Fixpoint fold_result {A S : Type} (f : S -> A -> result S) (l : list A) (s : S) : result S :=
  match l with
  | [] => Ok s
  | a :: l' => do s' <- f s a; fold_result f l' s'
  end.

(** ** Python strings *)

Definition chars (s : string) : list ascii := list_ascii_of_string s.
Definition str (l : list ascii) : string := string_of_list_ascii l.

Definition nl : string := String (ascii_of_nat 10) "".
Definition tab : ascii := ascii_of_nat 9.

Definition len (s : string) : Z := Z.of_nat (String.length s).

(** [sep.join(l)] *)
Definition join (sep : string) (l : list string) : string := String.concat sep l.

(** [s.startswith(p)] *)
Definition startswith (p s : string) : bool := String.prefix p s.

(** [c.isspace()] on the code points below 256. *)
Definition isspace (c : ascii) : bool :=
  let n := N_of_ascii c in
  ((9 <=? n) && (n <=? 13) || (28 <=? n) && (n <=? 32) || (n =? 133) || (n =? 160))%N.

Fixpoint lstrip_chars (l : list ascii) : list ascii :=
  match l with
  | [] => []
  | c :: l' => if isspace c then lstrip_chars l' else l
  end.

Definition rstrip_chars (l : list ascii) : list ascii := rev (lstrip_chars (rev l)).

(** [s.strip()] and [s.rstrip()] *)
Definition strip (s : string) : string := str (rstrip_chars (lstrip_chars (chars s))).
Definition rstrip (s : string) : string := str (rstrip_chars (chars s)).

(** [s.split(sep)] for a separator of one character: every occurrence
    splits, and the result is never empty. *)
Fixpoint split_chars (sep : ascii) (l : list ascii) : list (list ascii) :=
  match l with
  | [] => [[]]
  | c :: l' =>
      if Ascii.eqb c sep then [] :: split_chars sep l'
      else match split_chars sep l' with
           | w :: ws => (c :: w) :: ws
           | [] => [[c]]
           end
  end.

Definition split (sep : ascii) (s : string) : list string :=
  map str (split_chars sep (chars s)).

(** [s.split()]: the maximal runs of characters that are not whitespace. *)
Fixpoint split_ws_chars (cur : list ascii) (l : list ascii) : list (list ascii) :=
  match l with
  | [] => match cur with [] => [] | _ => [rev cur] end
  | c :: l' =>
      if isspace c then
        match cur with
        | [] => split_ws_chars [] l'
        | _ => rev cur :: split_ws_chars [] l'
        end
      else split_ws_chars (c :: cur) l'
  end.

Definition split_ws (s : string) : list string :=
  map str (split_ws_chars [] (chars s)).

(** An index of a slice, as Python adjusts it: a negative index counts from
    the end, and the result is clamped to [0, n]. *)
Definition slice_index (n i : Z) : Z :=
  if i <? 0 then Z.max (i + n) 0 else Z.min i n.

(** [s[a:b]] *)
Definition py_slice (s : string) (a b : Z) : string :=
  let lo := slice_index (len s) a in
  let hi := slice_index (len s) b in
  str (take (Z.to_nat (hi - lo)) (drop (Z.to_nat lo) (chars s))).

(** [s[a:]] *)
Definition py_slice_from (s : string) (a : Z) : string := py_slice s a (len s).

(** [range(start, stop, step)], as the list of its items. *)
Definition py_range (start stop step : Z) : result (list Z) :=
  if step =? 0 then Raise ValueError
  else
    let n := if 0 <? step then (stop - start + step - 1) / step
             else (start - stop - step - 1) / (- step) in
    Ok (map (fun k => start + Z.of_nat k * step) (seq 0 (Z.to_nat n))).

(** [int(s)] in base 10: surrounding whitespace, an optional sign, then
    digits, where single underscores may separate digits.

    The whitespace that [int] skips is not the one of [strip]: among the
    code points below 128 it is the whitespace of C (9 to 13 and 32), so
    the separators 28 to 31 are refused, and above it is every whitespace
    code point (133 and 160 below 256). *)
Definition int_space (c : ascii) : bool :=
  let n := N_of_ascii c in
  ((9 <=? n) && (n <=? 13) || (n =? 32) || (n =? 133) || (n =? 160))%N.

Fixpoint skip_int_space (l : list ascii) : list ascii :=
  match l with
  | [] => []
  | c :: l' => if int_space c then skip_int_space l' else l
  end.

Definition int_strip (l : list ascii) : list ascii :=
  rev (skip_int_space (rev (skip_int_space l))).

Definition digit_val (c : ascii) : option Z :=
  let n := N_of_ascii c in
  if ((48 <=? n) && (n <=? 57))%N then Some (Z.of_N (n - 48)) else None.

Fixpoint int_digits (acc : Z) (after_digit : bool) (l : list ascii) : option Z :=
  match l with
  | [] => if after_digit then Some acc else None
  | c :: l' =>
      if Ascii.eqb c "_" then
        if after_digit then int_digits acc false l' else None
      else match digit_val c with
           | Some d => int_digits (10 * acc + d) true l'
           | None => None
           end
  end.

(** The interpreter refuses a numeral of more than
    [sys.int_info.default_max_str_digits] digits (sign and underscores not
    counted); this is the limit of an interpreter started without option. *)
Definition int_max_str_digits : nat := 4300.

Definition digit_count (l : list ascii) : nat :=
  length (List.filter (fun c => match digit_val c with Some _ => true | None => false end) l).

Definition py_int (s : string) : result Z :=
  let l := int_strip (chars s) in
  let '(sign, body) :=
    match l with
    | c :: l' =>
        if Ascii.eqb c "-" then (-1, l')
        else if Ascii.eqb c "+" then (1, l')
        else (1, l)
    | [] => (1, [])
    end in
  match int_digits 0 false body with
  | Some n =>
      if (digit_count body <=? int_max_str_digits)%nat then Ok (sign * n)
      else Raise ValueError
  | None => Raise ValueError
  end.

(** ** reverse_complement *)

(** [complement[base]] with
    [complement = {'A': 'T', 'T': 'A', 'C': 'G', 'G': 'C'}]. *)
Definition complement (base : ascii) : result ascii :=
  if Ascii.eqb base "A" then Ok "T"%char
  else if Ascii.eqb base "T" then Ok "A"%char
  else if Ascii.eqb base "C" then Ok "G"%char
  else if Ascii.eqb base "G" then Ok "C"%char
  else Raise (KeyError (Some (String base ""))).

(** [''.join(complement[base] for base in reversed(seq))] *)
Definition reverse_complement (seq : string) : result string :=
  do cs <- map_result complement (rev (chars seq));
  Ok (str cs).

(** ** format_fasta *)

(** [f">{header}\n" + '\n'.join(sequence[i:i+line_length]
                                for i in range(0, len(sequence), line_length))] *)
Definition format_fasta (header sequence : string) (line_length : Z) : result string :=
  do starts <- py_range 0 (len sequence) line_length;
  Ok (">" +:+ header +:+ nl +:+
      join nl (map (fun i => py_slice sequence i (i + line_length)) starts)).

(** The default of the parameter [line_length]. *)
Definition default_line_length : Z := 60.

(** ** get_sequence *)

Definition get_sequence (sequence_data : gmap string (list string))
    (seqid : string) (start end_ : Z) (strand : string) : result string :=
  match sequence_data !! seqid with
  | None => Raise (KeyError (Some seqid))
  | Some lines =>
      let sequence := py_slice (join "" lines) (start - 1) end_ in
      if String.eqb strand "-" then reverse_complement sequence
      else Ok sequence
  end.

(** ** parse_gff3 *)

(** A matching feature: [(seqid, int(start), int(end), strand)]. *)
Definition feature : Type := string * Z * Z * string.

(** The local variables of [parse_gff3] that the loop reads and updates. *)
Record state : Type := State {
  features : list feature;
  fasta_start : bool;
  sequence_data : gmap string (list string);
  current_sequence_id : option string
}.

Definition initial_state : state :=
  {| features := []; fasta_start := false;
     sequence_data := ∅; current_sequence_id := None |}.

(** [key, value = attr.split('=')]: the unpacking needs exactly two parts. *)
Definition unpack_pair (parts : list string) : result (string * string) :=
  match parts with
  | [key; value] => Ok (key, value)
  | _ => Raise ValueError
  end.

(** [{key: value for key, value in pairs}]: a later pair replaces an earlier
    one with the same key. *)
Definition dict_of_pairs (pairs : list (string * string)) : gmap string string :=
  fold_left (fun d kv => <[kv.1 := kv.2]> d) pairs ∅.

(** [{key: value for key, value in
       [attr.split('=') for attr in attributes.split(';')]}] *)
Definition parse_attributes (attributes : string) : result (gmap string string) :=
  do pairs <- map_result unpack_pair (map (split "=") (split ";" attributes));
  Ok (dict_of_pairs pairs).

Section Parser.

Variables feature_type attribute_key attribute_value : string.

(** The body of the loop in the FASTA section, on the stripped line. *)
Definition fasta_line (st : state) (line : string) : result state :=
  if startswith ">" line then
    match split_ws (py_slice_from line 1) with
    | [] => Raise IndexError
    | id :: _ =>
        Ok {| features := features st;
              fasta_start := fasta_start st;
              sequence_data := <[id := []]> (sequence_data st);
              current_sequence_id := Some id |}
    end
  else
    match current_sequence_id st with
    | None => Raise (KeyError None)
    | Some id =>
        match sequence_data st !! id with
        | None => Raise (KeyError (Some id))
        | Some acc =>
            Ok {| features := features st;
                  fasta_start := fasta_start st;
                  sequence_data := <[id := (acc ++ [line])%list]> (sequence_data st);
                  current_sequence_id := current_sequence_id st |}
        end
    end.

(** The body of the loop before the FASTA section, on the stripped line. *)
Definition annotation_line (st : state) (line : string) : result state :=
  if startswith "#" line then Ok st
  else
    match split tab line with
    | [seqid; source; ftype; start; end_; score; strand; phase; attributes] =>
        if negb (String.eqb ftype feature_type) then Ok st
        else
          do attr_dict <- parse_attributes attributes;
          if decide (attr_dict !! attribute_key = Some attribute_value) then
            do s <- py_int start;
            do e <- py_int end_;
            Ok {| features := (features st ++ [(seqid, s, e, strand)])%list;
                  fasta_start := fasta_start st;
                  sequence_data := sequence_data st;
                  current_sequence_id := current_sequence_id st |}
          else Ok st
    | _ => Ok st
    end.

(** One iteration of [for line in file]. *)
Definition step (st : state) (raw : string) : result state :=
  let line := strip raw in
  if startswith "##FASTA" line then
    Ok {| features := features st;
          fasta_start := true;
          sequence_data := sequence_data st;
          current_sequence_id := current_sequence_id st |}
  else if fasta_start st then fasta_line st line
  else annotation_line st line.

Definition run (lines : list string) (st : state) : result state :=
  fold_result step lines st.

(** [parse_gff3], on the lines that iterating over the file yields. *)
Definition parse_gff3 (lines : list string)
  : result (list feature * gmap string (list string)) :=
  do st <- run lines initial_state;
  Ok (features st, sequence_data st).

End Parser.

(** ** Reference notions the properties are stated with *)

(** The four bases of the complement table. *)
Definition is_base (c : ascii) : bool :=
  Ascii.eqb c "A" || Ascii.eqb c "T" || Ascii.eqb c "C" || Ascii.eqb c "G".

(** The character of [s] at the 0-based position [i], when there is one. *)
Definition char_at (s : string) (i : Z) : option ascii :=
  if i <? 0 then None else chars s !! Z.to_nat i.

(** The characters of [s] at the positions [lo <= i < hi], in order;
    positions outside of [s] contribute nothing. *)
Definition range_chars (s : string) (lo hi : Z) : string :=
  str (omap (fun k => char_at s (lo + Z.of_nat k)) (seq 0 (Z.to_nat (hi - lo)))).

(** A bound of a slice as the interpreter reads it when it is negative. *)
Definition from_end (n i : Z) : Z := if i <? 0 then Z.max (i + n) 0 else i.


(** The three kinds of lines the loop tells apart in the FASTA section, on
    the line as read from the file. *)
Definition is_marker (raw : string) : bool := startswith "##FASTA" (strip raw).
Definition is_header (raw : string) : bool := startswith ">" (strip raw).
Definition header_id (raw : string) : option string :=
  if is_header raw then head (split_ws (py_slice_from (strip raw) 1)) else None.

(** A line that leaves the entry of [id] alone once another entry is the
    current one: anything but a header without identifier or a header of
    [id]. *)
Definition other_line (id : string) (raw : string) : bool :=
  is_marker raw || negb (is_header raw) ||
  match header_id raw with
  | Some id' => negb (String.eqb id' id)
  | None => false
  end.

(** ** main *)

(** What a run of the program leaves behind: the arguments of the calls of
    [print], in order, and the exception that ended the run, if any. *)
Definition output : Type := list string * option exn.

(** [f"{args.type}:{args.attribute}:{args.value}"] *)
Definition fasta_header (type_ attribute value : string) : string :=
  type_ +:+ ":" +:+ attribute +:+ ":" +:+ value.

(** [f"No features found for {args.type}:{args.attribute}={args.value}"] *)
Definition no_features_message (type_ attribute value : string) : string :=
  "No features found for " +:+ type_ +:+ ":" +:+ attribute +:+ "=" +:+ value.

(** [f"Warning: More than one feature found for
       {args.type}:{args.attribute}={args.value}"] *)
Definition many_features_warning (type_ attribute value : string) : string :=
  "Warning: More than one feature found for " +:+
  type_ +:+ ":" +:+ attribute +:+ "=" +:+ value.

(** The text printed for one feature:
    [format_fasta(header, get_sequence(sequence_data, seqid, start, end, strand))]. *)
Definition feature_fasta (header : string)
    (sequence_data : gmap string (list string)) (f : feature) : result string :=
  let '(seqid, start, end_, strand) := f in
  do sequence <- get_sequence sequence_data seqid start end_ strand;
  format_fasta header sequence default_line_length.

(** [for feature in features: ... print(format_fasta(header, sequence))] *)
Fixpoint print_features (header : string)
    (sequence_data : gmap string (list string)) (fs : list feature) : output :=
  match fs with
  | [] => ([], None)
  | f :: fs' =>
      match feature_fasta header sequence_data f with
      | Raise e => ([], Some e)
      | Ok text =>
          let '(printed, raised) := print_features header sequence_data fs' in
          (text :: printed, raised)
      end
  end.

(** [main], on the parsed arguments, with the lines of the file at
    [args.source_gff] in place of its path. *)
Definition main (lines : list string) (type_ attribute value : string) : output :=
  match parse_gff3 type_ attribute value lines with
  | Raise e => ([], Some e)
  | Ok (features, sequence_data) =>
      match features with
      | [] => ([no_features_message type_ attribute value], None)
      | [feature] =>
          match feature_fasta (fasta_header type_ attribute value)
                  sequence_data feature with
          | Raise e => ([], Some e)
          | Ok text => ([text], None)
          end
      | _ =>
          let '(printed, raised) :=
            print_features (fasta_header type_ attribute value)
              sequence_data features in
          (many_features_warning type_ attribute value :: printed, raised)
      end
  end.

(** The feature that an annotation line contributes, if any: the line is
    not a comment, has 9 fields and the requested type, its attributes and
    coordinates parse, and the attribute has the requested value. *)
Definition line_feature (feature_type attribute_key attribute_value : string)
    (raw : string) : option feature :=
  let line := strip raw in
  if startswith "#" line then None
  else
    match split tab line with
    | [seqid; _; ftype; start; end_; _; strand; _; attributes] =>
        if String.eqb ftype feature_type then
          match parse_attributes attributes, py_int start, py_int end_ with
          | Ok d, Ok s, Ok e =>
              if decide (d !! attribute_key = Some attribute_value)
              then Some (seqid, s, e, strand) else None
          | _, _, _ => None
          end
        else None
    | _ => None
    end.

(** The features a line adds to the list: one or none. *)
Definition feature_list (o : option feature) : list feature :=
  match o with
  | Some f => [f]
  | None => []
  end.

(** The accumulator of the current identifier is in the sequence map. *)
Definition current_entry_exists (st : state) : Prop :=
  match current_sequence_id st with
  | None => True
  | Some id => is_Some (sequence_data st !! id)
  end.

(** A character that may stand in an attribute key or value: neither the
    separator of the attributes nor the one of key and value. *)
Definition plain_char (c : ascii) : bool :=
  negb (Ascii.eqb c ";") && negb (Ascii.eqb c "=").

(** The state of the parser right after a '##FASTA' line at the top of a
    file. *)
Definition fasta_state : state :=
  {| features := []; fasta_start := true;
     sequence_data := ∅; current_sequence_id := None |}.

(** The newline, as a character. *)
Definition nl_char : ascii := ascii_of_nat 10.

Definition not_newline (c : ascii) : bool := negb (Ascii.eqb c nl_char).

(** The sequence map of the examples: one sequence, given on one line. *)
Definition example_sequences : gmap string (list string) :=
  {[ "chrI" := ["ACGTACGT"] ]}.

(** A line of the file: the text and the newline that ends it. *)
Definition file_line (text : string) : string := text +:+ nl.

(** An annotation line of a gene on the minus strand of chrI, positions 2
    to 4, with the given attributes. *)
Definition gene_line (attributes : string) : string :=
  file_line (join (String tab "")
               ["chrI"; "SGD"; "gene"; "2"; "4"; "."; "-"; "."; attributes]).

(** An annotation line of a gene with the attribute ID=x. *)
Definition gene_x_line (seqid start end_ strand : string) : string :=
  file_line (join (String tab "")
               [seqid; "SGD"; "gene"; start; end_; "."; strand; "."; "ID=x"]).

(** * Properties *)

(** ** Strings and lists of characters *)

Lemma chars_str (l : list ascii) : chars (str l) = l.
Proof. apply list_ascii_of_string_of_list_ascii. Qed.

Lemma str_chars (s : string) : str (chars s) = s.
Proof. apply string_of_list_ascii_of_string. Qed.

Lemma length_chars (s : string) : length (chars s) = String.length s.
Proof. induction s as [|c s IH]; simpl; [reflexivity | now rewrite IH]. Qed.

Lemma len_str (l : list ascii) : len (str l) = Z.of_nat (length l).
Proof. unfold len. now rewrite <- length_chars, chars_str. Qed.

Lemma append_cons (c : ascii) (s t : string) : String c s +:+ t = String c (s +:+ t).
Proof. reflexivity. Qed.

Lemma append_empty_l (s : string) : "" +:+ s = s.
Proof. reflexivity. Qed.

Lemma append_empty_r (s : string) : s +:+ "" = s.
Proof.
  induction s as [|c s IH]; [reflexivity|]. now rewrite append_cons, IH.
Qed.

Lemma str_app (l1 l2 : list ascii) : str (l1 ++ l2) = str l1 +:+ str l2.
Proof.
  induction l1 as [|c l1 IH]; [reflexivity|].
  simpl. now rewrite append_cons, IH.
Qed.

Lemma chars_app (s1 s2 : string) : chars (s1 +:+ s2) = (chars s1 ++ chars s2)%list.
Proof.
  induction s1 as [|c s1 IH]; [reflexivity|].
  rewrite append_cons. simpl. now rewrite IH.
Qed.

Lemma join_empty_str (ls : list (list ascii)) : join "" (map str ls) = str (concat ls).
Proof.
  induction ls as [|l ls IH]; [reflexivity|].
  simpl concat. rewrite str_app, <- IH. unfold join. simpl.
  destruct (map str ls) eqn:E; simpl; [now rewrite append_empty_r | reflexivity].
Qed.

(** ** Slices *)

Lemma omap_lookup_seq {A : Type} (l : list A) (a m : nat) :
  omap (fun k => l !! (a + k)%nat) (seq 0 m) = take m (drop a l).
Proof.
  revert a. induction m as [|m IH]; intros a; [now rewrite take_0|].
  rewrite <- cons_seq, <- seq_shift. simpl. rewrite Nat.add_0_r.
  destruct (l !! a) as [x|] eqn:E.
  - rewrite (drop_S _ _ _ E). simpl. f_equal.
    rewrite <- IH. clear. induction (seq 0 m) as [|k ks IHk]; simpl; [reflexivity|].
    rewrite IHk. now replace (a + S k)%nat with (S a + k)%nat by lia.
  - apply lookup_ge_None in E. rewrite (drop_ge _ _ E). simpl.
    clear IH. induction (seq 0 m) as [|k ks IHk]; simpl; [reflexivity|].
    rewrite IHk. assert (l !! (a + S k)%nat = None) as -> by (apply lookup_ge_None; lia).
    reflexivity.
Qed.

Lemma omap_pointwise {A B : Type} (f g : A -> option B) (l : list A) :
  (forall a, f a = g a) -> omap f l = omap g l.
Proof.
  intros Hfg. induction l as [|a l IH]; [reflexivity|].
  simpl. rewrite Hfg. destruct (g a); [f_equal|]; exact IH.
Qed.

Lemma range_chars_take_drop (s : string) (lo hi : Z) :
  0 <= lo ->
  range_chars s lo hi = str (take (Z.to_nat (hi - lo)) (drop (Z.to_nat lo) (chars s))).
Proof.
  intros Hlo. unfold range_chars. f_equal.
  rewrite <- omap_lookup_seq. apply omap_pointwise. intros k.
  unfold char_at.
  destruct (Z.ltb_spec (lo + Z.of_nat k) 0) as [?|_]; [lia|].
  now replace (Z.to_nat (lo + Z.of_nat k)) with (Z.to_nat lo + k)%nat by lia.
Qed.

Lemma py_slice_nonneg (s : string) (a b : Z) :
  0 <= a -> 0 <= b -> py_slice s a b = range_chars s a b.
Proof.
  intros Ha Hb. rewrite range_chars_take_drop by assumption.
  unfold py_slice, slice_index, len. rewrite <- length_chars.
  destruct (Z.ltb_spec a 0) as [?|_]; [lia|].
  destruct (Z.ltb_spec b 0) as [?|_]; [lia|].
  f_equal. set (l := chars s).
  destruct (Z.le_gt_cases (Z.of_nat (length l)) a) as [Hge|Hlt].
  - rewrite !drop_ge by lia. now rewrite !take_nil.
  - rewrite (Z.min_l a) by lia.
    destruct (Z.le_gt_cases (Z.of_nat (length l)) b) as [Hbge|Hblt].
    + rewrite (Z.min_r b) by lia. rewrite !take_ge; [reflexivity| |];
        rewrite length_drop; lia.
    + now rewrite (Z.min_l b) by lia.
Qed.

Lemma py_slice_from_end (s : string) (a b : Z) :
  py_slice s a b = range_chars s (from_end (len s) a) (from_end (len s) b).
Proof.
  assert (Hn : 0 <= len s) by (unfold len; lia).
  assert (Hidx : forall i, slice_index (len s) (from_end (len s) i) = slice_index (len s) i).
  { intros i. unfold slice_index, from_end.
    destruct (Z.ltb_spec i 0); [|destruct (Z.ltb_spec i 0); [lia | reflexivity]].
    destruct (Z.ltb_spec (Z.max (i + len s) 0) 0); lia. }
  rewrite <- py_slice_nonneg.
  - unfold py_slice. now rewrite !Hidx.
  - unfold from_end. destruct (Z.ltb_spec a 0); lia.
  - unfold from_end. destruct (Z.ltb_spec b 0); lia.
Qed.

(** ** The complement table *)

Lemma is_base_cases (c : ascii) :
  is_base c = true ->
  c = "A"%char \/ c = "T"%char \/ c = "C"%char \/ c = "G"%char.
Proof.
  unfold is_base. intros H.
  destruct (Ascii.eqb_spec c "A"); [tauto|].
  destruct (Ascii.eqb_spec c "T"); [tauto|].
  destruct (Ascii.eqb_spec c "C"); [tauto|].
  destruct (Ascii.eqb_spec c "G"); [tauto|].
  discriminate H.
Qed.

Lemma complement_base (c : ascii) :
  is_base c = true ->
  exists c', complement c = Ok c' /\ is_base c' = true /\ complement c' = Ok c.
Proof.
  intros H. destruct (is_base_cases c H) as [-> | [-> | [-> | ->]]];
    eexists; repeat split; reflexivity.
Qed.

Lemma complement_not_base (c : ascii) :
  is_base c = false -> complement c = Raise (KeyError (Some (String c ""))).
Proof.
  unfold is_base, complement. intros H.
  destruct (Ascii.eqb c "A"); [discriminate H|].
  destruct (Ascii.eqb c "T"); [discriminate H|].
  destruct (Ascii.eqb c "C"); [discriminate H|].
  destruct (Ascii.eqb c "G"); [discriminate H|].
  reflexivity.
Qed.

Lemma map_result_app {A B : Type} (f : A -> result B) (l1 l2 : list A) :
  map_result f (l1 ++ l2) =
  do b1 <- map_result f l1; do b2 <- map_result f l2; Ok (b1 ++ b2)%list.
Proof.
  induction l1 as [|a l1 IH]; simpl.
  - destruct (map_result f l2); reflexivity.
  - destruct (f a); simpl; [|reflexivity].
    rewrite IH. destruct (map_result f l1); simpl; [|reflexivity].
    destruct (map_result f l2); reflexivity.
Qed.

Lemma map_result_rev {A B : Type} (f : A -> result B) (l : list A) (l' : list B) :
  map_result f l = Ok l' -> map_result f (rev l) = Ok (rev l').
Proof.
  revert l'. induction l as [|a l IH]; intros l' H; simpl in H.
  - injection H as <-. reflexivity.
  - destruct (f a) as [b|] eqn:Ea; simpl in H; [|discriminate H].
    destruct (map_result f l) as [bs|] eqn:El; simpl in H; [|discriminate H].
    injection H as <-. simpl. rewrite map_result_app, (IH bs eq_refl).
    simpl. now rewrite Ea.
Qed.

Lemma map_complement_bases (l : list ascii) :
  forallb is_base l = true ->
  exists l', map_result complement l = Ok l' /\
             forallb is_base l' = true /\
             map_result complement l' = Ok l.
Proof.
  induction l as [|c l IH]; intros H; simpl in H.
  - exists []. repeat split.
  - apply andb_prop in H as [Hc Hl].
    destruct (complement_base c Hc) as (c' & E1 & Hc' & E2).
    destruct (IH Hl) as (l' & E3 & Hl' & E4).
    exists (c' :: l'). simpl. rewrite E1, E2, E3, E4, Hc', Hl'. repeat split.
Qed.

Lemma map_complement_first_bad (l : list ascii) :
  forallb is_base l = false ->
  exists c, In c l /\ is_base c = false /\
            map_result complement l = Raise (KeyError (Some (String c ""))).
Proof.
  induction l as [|c l IH]; intros H; simpl in H; [discriminate H|].
  destruct (is_base c) eqn:Hc; simpl in H.
  - destruct (IH H) as (d & Hin & Hd & E).
    exists d. repeat split; [now right | assumption |].
    destruct (complement_base c Hc) as (c' & E1 & _ & _).
    simpl. rewrite E1. simpl. now rewrite E.
  - exists c. repeat split; [now left | assumption |].
    simpl. now rewrite (complement_not_base c Hc).
Qed.

Lemma forallb_rev {A : Type} (p : A -> bool) (l : list A) :
  forallb p (rev l) = forallb p l.
Proof.
  induction l as [|a l IH]; [reflexivity|].
  simpl. rewrite forallb_app, IH. simpl. rewrite andb_true_r. apply andb_comm.
Qed.

(** C6. For every string over the bases A, T, C and G, [reverse_complement]
    returns a string whose own reverse complement is the string one started
    from: applying it twice gives the input back. *)
Theorem reverse_complement_involutive (s : string) :
  forallb is_base (chars s) = true ->
  exists r, reverse_complement s = Ok r /\ reverse_complement r = Ok s.
Proof.
  intros H. rewrite <- forallb_rev in H.
  destruct (map_complement_bases _ H) as (l' & E1 & _ & E2).
  exists (str l'). unfold reverse_complement. rewrite E1. simpl. split; [reflexivity|].
  rewrite chars_str, (map_result_rev _ _ _ E2). simpl.
  now rewrite rev_involutive, str_chars.
Qed.

Lemma reverse_complement_involutive_witness :
  forallb is_base (chars "ATCG") = true /\
  exists r, reverse_complement "ATCG" = Ok r /\ reverse_complement r = Ok "ATCG".
Proof.
  split; [reflexivity | apply (reverse_complement_involutive "ATCG"); reflexivity].
Defined.

(** C7, as stated, fails: the program has no error of its own for an
    unsupported base. What a character outside of A, T, C and G raises is
    the [KeyError] of the failed lookup in the complement table. *)
Lemma reverse_complement_raises_key_error :
  forallb is_base (chars "ACNT") = false /\
  reverse_complement "ACNT" = Raise (KeyError (Some "N")) /\
  exception_class (KeyError (Some "N")) <> "UnsupportedBase".
Proof. repeat split. discriminate. Qed.

(** C7, amended. A string with a character outside of A, T, C and G makes
    [reverse_complement] raise a [KeyError], the failure of the lookup in
    the complement table, whose key is a character of the input outside of
    A, T, C and G; no string is returned, so the character is neither
    dropped nor passed through. *)
Theorem reverse_complement_unsupported_base (s : string) :
  forallb is_base (chars s) = false ->
  exists c, In c (chars s) /\ is_base c = false /\
            reverse_complement s = Raise (KeyError (Some (String c ""))).
Proof.
  intros H. rewrite <- forallb_rev in H.
  destruct (map_complement_first_bad _ H) as (c & Hin & Hc & E).
  exists c. repeat split; [now apply in_rev | assumption |].
  unfold reverse_complement. now rewrite E.
Qed.

Lemma reverse_complement_unsupported_base_witness :
  forallb is_base (chars "ACNgT") = false /\
  exists c, In c (chars "ACNgT") /\ is_base c = false /\
            reverse_complement "ACNgT" = Raise (KeyError (Some (String c ""))).
Proof.
  split; [reflexivity | apply (reverse_complement_unsupported_base "ACNgT"); reflexivity].
Defined.

Example reverse_complement_ATCG : reverse_complement "ATCG" = Ok "CGAT".
Proof. reflexivity. Qed.

Example reverse_complement_lowercase :
  reverse_complement "ACgT" = Raise (KeyError (Some "g")).
Proof. reflexivity. Qed.

Example reverse_complement_N_U_gap :
  reverse_complement "N" = Raise (KeyError (Some "N")) /\
  reverse_complement "AUG" = Raise (KeyError (Some "U")) /\
  reverse_complement "A-C" = Raise (KeyError (Some "-")).
Proof. repeat split. Qed.

(** ** get_sequence *)

Lemma get_sequence_unfold (sequence_data : gmap string (list string))
    (seqid : string) (lines : list string) (start end_ : Z) (strand : string) :
  sequence_data !! seqid = Some lines ->
  get_sequence sequence_data seqid start end_ strand =
  if String.eqb strand "-"
  then reverse_complement (py_slice (join "" lines) (start - 1) end_)
  else Ok (py_slice (join "" lines) (start - 1) end_).
Proof. intros H. unfold get_sequence. now rewrite H. Qed.

(** C1. With [seqid] in the map and 1-based coordinates, the extracted
    slice is made of the characters of the concatenated sequence at the
    0-based positions [start-1 <= i < end]; the result is the reverse
    complement of the slice when the strand is '-', and the slice itself for
    every other strand. *)
Theorem get_sequence_one_based (sequence_data : gmap string (list string))
    (seqid : string) (lines : list string) (start end_ : Z) (strand : string) :
  sequence_data !! seqid = Some lines ->
  1 <= start -> 0 <= end_ ->
  get_sequence sequence_data seqid start end_ strand =
  if String.eqb strand "-"
  then reverse_complement (range_chars (join "" lines) (start - 1) end_)
  else Ok (range_chars (join "" lines) (start - 1) end_).
Proof.
  intros H Hs He. rewrite (get_sequence_unfold _ _ _ _ _ _ H).
  now rewrite py_slice_nonneg by lia.
Qed.

Lemma get_sequence_one_based_witness :
  example_sequences !! "chrI" = Some ["ACGTACGT"] /\ 1 <= 2 /\ 0 <= 4 /\
  get_sequence example_sequences "chrI" 2 4 "-" = Ok "ACG".
Proof.
  split; [reflexivity|]. split; [lia|]. split; [lia|].
  exact (get_sequence_one_based example_sequences "chrI" ["ACGTACGT"] 2 4 "-"
           eq_refl ltac:(lia) ltac:(lia)).
Defined.

Example get_sequence_forward :
  get_sequence example_sequences "chrI" 2 4 "+" = Ok "CGT".
Proof. reflexivity. Qed.

Example get_sequence_reverse :
  get_sequence example_sequences "chrI" 2 4 "-" = Ok "ACG".
Proof. reflexivity. Qed.

Example get_sequence_other_strands :
  get_sequence example_sequences "chrI" 2 4 "." = Ok "CGT" /\
  get_sequence example_sequences "chrI" 2 4 "?" = Ok "CGT" /\
  get_sequence example_sequences "chrI" 2 4 "minus" = Ok "CGT".
Proof. repeat split. Qed.

Example get_sequence_unknown_seqid :
  get_sequence example_sequences "chrII" 2 4 "+" =
  Raise (KeyError (Some "chrII")).
Proof. reflexivity. Qed.

(** C2, as stated, fails: with [start = 0] the lower bound [start-1] is -1,
    which the slice reads as the last position, so the result is empty and
    not the in-bounds part "ACGT" of the positions [-1 <= i < 4]. *)
Lemma get_sequence_start_zero_not_clamped :
  get_sequence example_sequences "chrI" 0 4 "+" = Ok "" /\
  range_chars "ACGTACGT" (0 - 1) 4 = "ACGT" /\
  get_sequence example_sequences "chrI" 0 4 "+" <>
  Ok (range_chars (join "" ["ACGTACGT"]) (0 - 1) 4).
Proof. repeat split. discriminate. Qed.

(** C2, amended. With [seqid] in the map the slicing itself never raises,
    whatever the coordinates: a bound that is not negative is used as it
    is, so that [start >= 1] and an [end] beyond the length give the
    in-bounds part of the positions [start-1 <= i < end]; a negative bound
    ([start-1] when [start <= 0], or a negative [end]) counts from the end
    of the sequence, that is, [length] is added to it and the sum is raised
    to 0 when it is still negative. The slice is returned for every strand
    but '-', where its reverse complement is. *)
Theorem get_sequence_out_of_range (sequence_data : gmap string (list string))
    (seqid : string) (lines : list string) (start end_ : Z) (strand : string) :
  sequence_data !! seqid = Some lines ->
  let sequence := join "" lines in
  let slice := range_chars sequence (from_end (len sequence) (start - 1))
                                    (from_end (len sequence) end_) in
  get_sequence sequence_data seqid start end_ strand =
  (if String.eqb strand "-" then reverse_complement slice else Ok slice) /\
  (1 <= start -> 0 <= end_ -> slice = range_chars sequence (start - 1) end_) /\
  (start <= 0 -> 0 <= end_ ->
   slice = range_chars sequence (Z.max (len sequence + start - 1) 0) end_).
Proof.
  intros H sequence slice. split; [|split].
  - rewrite (get_sequence_unfold _ _ _ _ _ _ H).
    fold sequence. now rewrite py_slice_from_end.
  - intros Hs He. unfold slice, from_end.
    destruct (Z.ltb_spec (start - 1) 0); [lia|].
    destruct (Z.ltb_spec end_ 0); [lia | reflexivity].
  - intros Hs He. unfold slice, from_end.
    destruct (Z.ltb_spec (start - 1) 0); [|lia].
    destruct (Z.ltb_spec end_ 0); [lia|].
    now replace (start - 1 + len sequence) with (len sequence + start - 1) by lia.
Qed.

Lemma get_sequence_out_of_range_witness :
  example_sequences !! "chrI" = Some ["ACGTACGT"] /\
  get_sequence example_sequences "chrI" (-2) 100 "+" = Ok "CGT".
Proof.
  split; [reflexivity|].
  exact (proj1 (get_sequence_out_of_range example_sequences "chrI"
                  ["ACGTACGT"] (-2) 100 "+" eq_refl)).
Defined.

(** ** format_fasta *)

Lemma lookup_map {A B : Type} (f : A -> B) (l : list A) (i : nat) :
  map f l !! i = f <$> (l !! i).
Proof.
  revert i. induction l as [|a l IH]; intros [|i]; simpl; auto.
Qed.

Lemma last_map {A B : Type} (f : A -> B) (l : list A) :
  last (map f l) = f <$> last l.
Proof.
  induction l as [|a [|b l] IH]; [reflexivity | reflexivity |].
  change (map f (a :: b :: l)) with (f a :: f b :: map f l).
  rewrite !last_cons_cons. exact IH.
Qed.

(** The pieces [take n (drop (k * n) l)] for [k < m], where [m] is the
    least number of pieces of [n] items that cover [l]. *)
Lemma pieces_spec (n : nat) :
  (1 <= n)%nat ->
  forall (m : nat) (l : list ascii),
    (length l <= m * n)%nat -> (m * n < length l + n)%nat ->
    let ls := map (fun k => take n (drop (k * n) l)) (seq 0 m) in
    concat ls = l /\
    (forall i c, ls !! i = Some c -> (S i < m)%nat -> length c = n) /\
    (forall c, last ls = Some c -> (1 <= length c <= n)%nat).
Proof.
  intros Hn. induction m as [|m IH]; intros l Hle Hlt.
  - simpl in *. assert (l = []) as -> by (destruct l; [reflexivity | simpl in Hle; lia]).
    repeat split; intros; discriminate.
  - cbv zeta. rewrite <- cons_seq, <- seq_shift, map_cons, map_map.
    change (0 * n)%nat with 0%nat. rewrite drop_0.
    assert (Htl : map (fun k => take n (drop (S k * n) l)) (seq 0 m) =
                  map (fun k => take n (drop (k * n) (drop n l))) (seq 0 m)).
    { apply map_ext. intros k. rewrite drop_drop. reflexivity. }
    rewrite Htl. clear Htl.
    change (S m * n)%nat with (n + m * n)%nat in Hle, Hlt.
    assert (Hl' : length (drop n l) = (length l - n)%nat) by apply length_drop.
    destruct (IH (drop n l)) as (Hcat & Hmid & Hlast); [lia | lia |].
    split; [|split].
    + simpl. rewrite Hcat. apply take_drop.
    + intros [|i] c Hc Hi; simpl in Hc.
      * injection Hc as <-. rewrite length_take.
        destruct m as [|m']; [lia|].
        change (S m' * n)%nat with (n + m' * n)%nat in Hlt. lia.
      * apply (Hmid i c Hc). lia.
    + intros c Hc. destruct m as [|m'].
      * simpl in Hc. injection Hc as <-. rewrite length_take.
        simpl in Hlt. lia.
      * rewrite <- cons_seq, map_cons, last_cons_cons in Hc.
        apply Hlast. rewrite <- cons_seq, map_cons. exact Hc.
Qed.

Lemma line_count_bounds (n len_ : Z) :
  1 <= n -> 0 <= len_ ->
  let m := (len_ - 0 + n - 1) / n in
  0 <= m /\ len_ <= m * n /\ m * n < len_ + n.
Proof.
  intros Hn Hl m.
  pose proof (Z.div_mod (len_ - 0 + n - 1) n ltac:(lia)) as Hdm.
  pose proof (Z.mod_pos_bound (len_ - 0 + n - 1) n ltac:(lia)) as Hmod.
  fold m in Hdm. nia.
Qed.

Lemma format_fasta_lines (header sequence : string) (n : Z) :
  1 <= n ->
  format_fasta header sequence n =
  Ok (">" +:+ header +:+ nl +:+
      join nl (map str (map (fun k => take (Z.to_nat n) (drop (k * Z.to_nat n) (chars sequence)))
                            (seq 0 (Z.to_nat ((len sequence - 0 + n - 1) / n)))))).
Proof.
  intros Hn. unfold format_fasta, py_range.
  destruct (Z.eqb_spec n 0) as [?|_]; [lia|].
  destruct (Z.ltb_spec 0 n) as [_|?]; [|lia].
  simpl. do 5 f_equal. rewrite !map_map. apply map_ext. intros k.
  rewrite py_slice_nonneg, range_chars_take_drop by lia.
  do 2 f_equal; [lia|]. f_equal. lia.
Qed.

(** C8. For a line length [n >= 1] the output is '>', the header and a
    newline, followed by lines joined by single newlines with nothing after
    the last one; the lines put end to end are the sequence, every line but
    the last has exactly [n] characters, and the last has between 1 and
    [n]. In particular the sequence "ACGTACGTAC" at width 4 gives the lines
    ">h", "ACGT", "ACGT", "AC". *)
Theorem format_fasta_wraps (header sequence : string) (n : Z) :
  (1 <= n ->
   exists lines,
     format_fasta header sequence n = Ok (">" +:+ header +:+ nl +:+ join nl lines) /\
     join "" lines = sequence /\
     (forall i l, lines !! i = Some l -> (S i < length lines)%nat -> len l = n) /\
     (forall l, last lines = Some l -> 1 <= len l <= n)) /\
  format_fasta "h" "ACGTACGTAC" 4 = Ok (join nl [">h"; "ACGT"; "ACGT"; "AC"]).
Proof.
  split; [|reflexivity]. intros Hn.
  set (m := Z.to_nat ((len sequence - 0 + n - 1) / n)).
  set (ls := map (fun k => take (Z.to_nat n) (drop (k * Z.to_nat n) (chars sequence)))
                 (seq 0 m)).
  destruct (line_count_bounds n (len sequence) Hn ltac:(unfold len; lia))
    as (Hm0 & Hm1 & Hm2).
  destruct (pieces_spec (Z.to_nat n) ltac:(lia) m (chars sequence))
    as (Hcat & Hmid & Hlast).
  { rewrite length_chars. unfold m, len in *. nia. }
  { rewrite length_chars. unfold m, len in *. nia. }
  fold ls in Hcat, Hmid, Hlast.
  exists (map str ls). split; [|split; [|split]].
  - apply format_fasta_lines, Hn.
  - now rewrite join_empty_str, Hcat, str_chars.
  - intros i l Hl Hi. rewrite lookup_map in Hl.
    destruct (ls !! i) as [c|] eqn:Ec; [|discriminate Hl].
    injection Hl as <-. rewrite len_str, (Hmid i c Ec); [lia|].
    rewrite length_map in Hi. unfold ls in Hi.
    now rewrite length_map, length_seq in Hi.
  - intros l Hl. rewrite last_map in Hl.
    destruct (last ls) as [c|] eqn:Ec; [|discriminate Hl].
    injection Hl as <-. rewrite len_str. specialize (Hlast c eq_refl). lia.
Qed.

Lemma format_fasta_wraps_witness :
  1 <= 4 /\
  exists lines,
    format_fasta "h" "ACGTACGTAC" 4 = Ok (">" +:+ "h" +:+ nl +:+ join nl lines) /\
    join "" lines = "ACGTACGTAC" /\
    (forall i l, lines !! i = Some l -> (S i < length lines)%nat -> len l = 4) /\
    (forall l, last lines = Some l -> 1 <= len l <= 4).
Proof.
  split; [lia|].
  apply (proj1 (format_fasta_wraps "h" "ACGTACGTAC" 4)). lia.
Defined.

Example format_fasta_default_width :
  format_fasta "gene:ID:x" "ACGT" default_line_length = Ok (join nl [">gene:ID:x"; "ACGT"]).
Proof. reflexivity. Qed.

(** C10. For a line length [n >= 1] the empty sequence is formatted as '>',
    the header and the newline that ends the header line, and nothing more. *)
Theorem format_fasta_empty_sequence (header : string) (n : Z) :
  1 <= n -> format_fasta header "" n = Ok (">" +:+ header +:+ nl).
Proof.
  intros Hn. rewrite format_fasta_lines by assumption.
  change (len "") with 0.
  rewrite Z.div_small by lia. simpl. now rewrite append_empty_r.
Qed.

Lemma format_fasta_empty_sequence_witness :
  1 <= 60 /\ format_fasta "h" "" 60 = Ok (">" +:+ "h" +:+ nl).
Proof.
  split; [lia | apply (format_fasta_empty_sequence "h" 60); lia].
Defined.

(** C9, as stated, fails: a negative line length is not rejected, the
    header line alone is returned. *)
Lemma format_fasta_negative_length_accepted :
  -1 <= 0 /\ format_fasta "h" "ACGTACGTAC" (-1) = Ok (">h" +:+ nl).
Proof. split; [lia | reflexivity]. Qed.

(** C9, amended. The line length 0 is rejected: building the range of the
    line starts raises a [ValueError]. A negative line length is accepted:
    the range is empty and the output is the header line alone, whatever the
    sequence. *)
Theorem format_fasta_nonpositive_length (header sequence : string) (n : Z) :
  (n = 0 -> format_fasta header sequence n = Raise ValueError) /\
  (n < 0 -> format_fasta header sequence n = Ok (">" +:+ header +:+ nl)).
Proof.
  split.
  - intros ->. reflexivity.
  - intros Hn. unfold format_fasta, py_range.
    destruct (Z.eqb_spec n 0) as [?|_]; [lia|].
    destruct (Z.ltb_spec 0 n) as [?|_]; [lia|].
    assert (Hq : (0 - len sequence - n - 1) / - n <= 0).
    { assert ((0 - len sequence - n - 1) / - n < 1); [|lia].
      apply Z.div_lt_upper_bound; unfold len; lia. }
    replace (Z.to_nat ((0 - len sequence - n - 1) / - n)) with 0%nat by lia.
    simpl. now rewrite append_empty_r.
Qed.

Lemma format_fasta_nonpositive_length_witness :
  format_fasta "h" "ACGT" 0 = Raise ValueError /\
  format_fasta "h" "ACGT" (-3) = Ok (">" +:+ "h" +:+ nl).
Proof.
  split.
  - apply (proj1 (format_fasta_nonpositive_length "h" "ACGT" 0)). reflexivity.
  - apply (proj2 (format_fasta_nonpositive_length "h" "ACGT" (-3))). lia.
Defined.

(** ** Splitting on a character *)

Lemma split_chars_not_nil (sep : ascii) (l : list ascii) : split_chars sep l <> [].
Proof.
  destruct l as [|c l]; simpl; [discriminate|].
  destruct (Ascii.eqb c sep); [discriminate|].
  destruct (split_chars sep l); discriminate.
Qed.









(** ** parse_gff3: the switch to the FASTA section *)

Section ParserProperties.

Variables feature_type attribute_key attribute_value : string.

Abbreviation step' := (step feature_type attribute_key attribute_value).
Abbreviation run' := (run feature_type attribute_key attribute_value).
Abbreviation annotation_line' :=
  (annotation_line feature_type attribute_key attribute_value).

Lemma step_marker (st : state) (raw : string) :
  is_marker raw = true ->
  step' st raw = Ok {| features := features st;
                      fasta_start := true;
                      sequence_data := sequence_data st;
                      current_sequence_id := current_sequence_id st |}.
Proof. unfold is_marker, step. now intros ->. Qed.

Lemma step_fasta (st : state) (raw : string) :
  is_marker raw = false -> fasta_start st = true ->
  step' st raw = fasta_line st (strip raw).
Proof. unfold is_marker, step. now intros -> ->. Qed.

Lemma step_annotation (st : state) (raw : string) :
  is_marker raw = false -> fasta_start st = false ->
  step' st raw = annotation_line' st (strip raw).
Proof. unfold is_marker, step. now intros -> ->. Qed.

Lemma fasta_line_fasta_start (st st' : state) (line : string) :
  fasta_line st line = Ok st' -> fasta_start st' = fasta_start st.
Proof.
  unfold fasta_line. intros H.
  destruct (startswith ">" line).
  - destruct (split_ws (py_slice_from line 1)); [discriminate H|].
    now injection H as <-.
  - destruct (current_sequence_id st); [|discriminate H].
    destruct (sequence_data st !! s); [|discriminate H].
    now injection H as <-.
Qed.

Lemma annotation_line_fasta_start (st st' : state) (line : string) :
  annotation_line' st line = Ok st' -> fasta_start st' = fasta_start st.
Proof.
  unfold annotation_line. intros H.
  destruct (startswith "#" line); [now injection H as <-|].
  destruct (split tab line) as [|? [|? [|? [|? [|? [|? [|? [|? [|? [|? ?]]]]]]]]]];
    try (now injection H as <-).
  destruct (negb _); [now injection H as <-|].
  destruct (parse_attributes _); simpl in H; [|discriminate H].
  destruct (decide _); [|now injection H as <-].
  destruct (py_int _); simpl in H; [|discriminate H].
  destruct (py_int _); simpl in H; [|discriminate H].
  now injection H as <-.
Qed.

Lemma step_fasta_start (st st' : state) (raw : string) :
  step' st raw = Ok st' ->
  fasta_start st' = is_marker raw || fasta_start st.
Proof.
  intros H. destruct (is_marker raw) eqn:Em.
  - rewrite step_marker in H by assumption. now injection H as <-.
  - destruct (fasta_start st) eqn:Ef.
    + rewrite step_fasta in H by assumption.
      apply fasta_line_fasta_start in H. now rewrite H, Ef.
    + rewrite step_annotation in H by assumption.
      apply annotation_line_fasta_start in H. now rewrite H, Ef.
Qed.

Lemma run_nil (st : state) : run' [] st = Ok st.
Proof. reflexivity. Qed.

Lemma run_cons (raw : string) (lines : list string) (st : state) :
  run' (raw :: lines) st = do st1 <- step' st raw; run' lines st1.
Proof. reflexivity. Qed.

Lemma run_fasta_start (lines : list string) (st st' : state) :
  fasta_start st = true -> run' lines st = Ok st' -> fasta_start st' = true.
Proof.
  revert st. induction lines as [|raw lines IH]; intros st Hf H.
  - rewrite run_nil in H. now injection H as <-.
  - rewrite run_cons in H.
    destruct (step' st raw) as [st1|] eqn:E1; cbn [bind] in H; [|discriminate H].
    apply (IH st1); [|exact H].
    rewrite (step_fasta_start _ _ _ E1), Hf. apply orb_true_r.
Qed.

Lemma run_app (l1 l2 : list string) (st : state) :
  run' (l1 ++ l2) st = do st1 <- run' l1 st; run' l2 st1.
Proof.
  revert st. induction l1 as [|raw l1 IH]; intros st.
  - rewrite run_nil. reflexivity.
  - change ((raw :: l1) ++ l2)%list with (raw :: (l1 ++ l2))%list.
    rewrite !run_cons.
    destruct (step' st raw); cbn [bind]; [apply IH | reflexivity].
Qed.

(** C3, amended. A line that starts with '##FASTA' once leading and
    trailing whitespace is removed switches the parser to sequence mode
    and is itself discarded: features, sequence data and current
    identifier are left as they were. Only such a line moves the parser
    out of annotation mode, and once in sequence mode the parser stays
    there for the rest of the lines. *)
Theorem fasta_marker_switches_mode :
  (forall st raw,
      is_marker raw = true ->
      step' st raw = Ok {| features := features st;
                          fasta_start := true;
                          sequence_data := sequence_data st;
                          current_sequence_id := current_sequence_id st |}) /\
  (forall st raw st',
      fasta_start st = false -> step' st raw = Ok st' ->
      fasta_start st' = true -> is_marker raw = true) /\
  (forall lines st st',
      fasta_start st = true -> run' lines st = Ok st' -> fasta_start st' = true).
Proof.
  split; [|split].
  - apply step_marker.
  - intros st raw st' Hf H Hf'.
    rewrite (step_fasta_start _ _ _ H), Hf, orb_false_r in Hf'. exact Hf'.
  - apply run_fasta_start.
Qed.

(** ** parse_gff3: the attributes of an annotation line *)


(** ** parse_gff3: the FASTA section *)

Lemma header_not_marker (raw : string) : is_header raw = true -> is_marker raw = false.
Proof.
  unfold is_header, is_marker, startswith.
  destruct (strip raw) as [|c l]; [discriminate|].
  change (String.prefix ">" (String c l))
    with (if ascii_dec ">" c then String.prefix "" l else false).
  change (String.prefix "##FASTA" (String c l))
    with (if ascii_dec "#" c then String.prefix "#FASTA" l else false).
  destruct (ascii_dec ">" c) as [<-|]; [intros _ | discriminate].
  destruct (ascii_dec "#" ">") as [E|]; [discriminate E | reflexivity].
Qed.

Lemma step_header (st : state) (raw id : string) :
  fasta_start st = true -> header_id raw = Some id ->
  step' st raw = Ok {| features := features st;
                      fasta_start := fasta_start st;
                      sequence_data := <[id := []]> (sequence_data st);
                      current_sequence_id := Some id |}.
Proof.
  intros Hf Hid. unfold header_id in Hid.
  destruct (is_header raw) eqn:Hh; [|discriminate Hid].
  rewrite step_fasta by (auto using header_not_marker).
  unfold fasta_line. unfold is_header in Hh. rewrite Hh.
  destruct (split_ws (py_slice_from (strip raw) 1)); [discriminate Hid|].
  now injection Hid as ->.
Qed.

Lemma step_sequence_line (st : state) (raw id : string) (acc : list string) :
  fasta_start st = true -> is_marker raw = false -> is_header raw = false ->
  current_sequence_id st = Some id -> sequence_data st !! id = Some acc ->
  step' st raw = Ok {| features := features st;
                      fasta_start := fasta_start st;
                      sequence_data := <[id := (acc ++ [strip raw])%list]> (sequence_data st);
                      current_sequence_id := current_sequence_id st |}.
Proof.
  intros Hf Hm Hh Hc Hacc. rewrite step_fasta by assumption.
  unfold fasta_line. unfold is_header in Hh. now rewrite Hh, Hc, Hacc.
Qed.

Ltac name_state l st0 :=
  match goal with
  | |- context [run _ _ _ l ?s] => set (st0 := s)
  end.

(** The lines up to the next header extend the current entry. *)
Lemma run_sequence_lines (id : string) (body : list string) :
  forall (st : state) (acc : list string),
    fasta_start st = true ->
    current_sequence_id st = Some id ->
    sequence_data st !! id = Some acc ->
    Forall (fun raw => is_header raw = false) body ->
    exists st',
      run' body st = Ok st' /\
      fasta_start st' = true /\
      current_sequence_id st' = Some id /\
      sequence_data st' !! id =
        Some (acc ++ map strip (List.filter (fun raw => negb (is_marker raw)) body))%list.
Proof.
  induction body as [|raw body IH]; intros st acc Hf Hc Hacc Hbody.
  - exists st. rewrite run_nil. simpl. now rewrite app_nil_r.
  - inversion Hbody as [|? ? Hraw Hrest]; subst.
    rewrite run_cons. destruct (is_marker raw) eqn:Em.
    + rewrite step_marker by assumption. cbn [bind]. name_state body st0.
      destruct (IH st0 acc eq_refl Hc Hacc Hrest) as (st' & E & ? & ? & Hsd).
      exists st'. simpl. rewrite Em. simpl. auto.
    + rewrite (step_sequence_line _ _ id acc) by assumption. cbn [bind].
      name_state body st0.
      destruct (IH st0 (acc ++ [strip raw])%list Hf Hc (lookup_insert_eq _ _ _) Hrest)
        as (st' & E & ? & ? & Hsd).
      exists st'. simpl. rewrite Em. simpl.
      rewrite <- app_assoc in Hsd. auto.
Qed.

(** Once another entry is the current one, the entry of [id] is left alone. *)
Lemma run_other_entries (id : string) (post : list string) :
  forall (st : state) (c : string),
    fasta_start st = true ->
    current_sequence_id st = Some c -> c <> id ->
    is_Some (sequence_data st !! c) ->
    Forall (fun raw => other_line id raw = true) post ->
    exists st',
      run' post st = Ok st' /\ sequence_data st' !! id = sequence_data st !! id.
Proof.
  induction post as [|raw post IH]; intros st c Hf Hc Hne [acc Hacc] Hpost.
  - exists st. now rewrite run_nil.
  - inversion Hpost as [|? ? Hraw Hrest]; subst.
    rewrite run_cons. unfold other_line in Hraw.
    destruct (is_marker raw) eqn:Em.
    + rewrite step_marker by assumption. cbn [bind]. name_state post st0.
      destruct (IH st0 c eq_refl Hc Hne (ex_intro _ acc Hacc) Hrest) as (st' & E & Hsd).
      exists st'. auto.
    + destruct (is_header raw) eqn:Eh; simpl in Hraw.
      * destruct (header_id raw) as [id'|] eqn:Eid; [|discriminate Hraw].
        apply negb_true_iff, String.eqb_neq in Hraw.
        rewrite (step_header _ _ id') by assumption. cbn [bind].
        name_state post st0.
        destruct (IH st0 id' Hf eq_refl Hraw
                    (ex_intro _ [] (lookup_insert_eq _ _ _)) Hrest) as (st' & E & Hsd).
        exists st'. split; [exact E|].
        rewrite Hsd. simpl. now apply lookup_insert_ne.
      * rewrite (step_sequence_line _ _ c acc) by assumption. cbn [bind].
        name_state post st0.
        destruct (IH st0 c Hf Hc Hne
                    (ex_intro _ _ (lookup_insert_eq _ _ _)) Hrest) as (st' & E & Hsd).
        exists st'. split; [exact E|].
        rewrite Hsd. simpl. now apply lookup_insert_ne.
Qed.

(** C5, amended. In sequence mode a line that, once stripped, starts with
    '>' opens the entry named by the first whitespace-delimited token after
    the '>', with an empty accumulator that replaces any earlier entry of
    that name. Each following line up to the next header is appended to it
    with its leading and trailing whitespace removed, except the lines that
    start with '##FASTA', which are dropped. When no later header names the
    same identifier, the final map sends it to these lines, in order; their
    concatenation is the sequence. *)
Theorem fasta_entry_after_last_header (pre body post : list string)
    (h id : string) (st1 : state) :
  run' pre initial_state = Ok st1 ->
  fasta_start st1 = true ->
  header_id h = Some id ->
  Forall (fun raw => is_header raw = false) body ->
  (forall h', head post = Some h' -> is_header h' = true) ->
  Forall (fun raw => other_line id raw = true) post ->
  exists feats sequences,
    parse_gff3 feature_type attribute_key attribute_value
      (pre ++ h :: body ++ post) = Ok (feats, sequences) /\
    sequences !! id =
      Some (map strip (List.filter (fun raw => negb (is_marker raw)) body)).
Proof.
  intros Hpre Hf Hid Hbody Hhead Hpost.
  assert (Hrun : exists st',
             run' (pre ++ h :: body ++ post) initial_state = Ok st' /\
             sequence_data st' !! id =
               Some (map strip (List.filter (fun raw => negb (is_marker raw)) body))).
  { rewrite run_app, Hpre. cbn [bind].
    rewrite run_cons, (step_header _ _ id) by assumption. cbn [bind].
    rewrite run_app. name_state body st0.
    destruct (run_sequence_lines id body st0 [] Hf eq_refl (lookup_insert_eq _ _ _) Hbody)
      as (st2 & E2 & Hf2 & Hc2 & Hsd2).
    rewrite E2. cbn [bind]. simpl in Hsd2.
    destruct post as [|h' post'].
    - exists st2. rewrite run_nil. auto.
    - inversion Hpost as [|? ? Hh' Hrest]; subst.
      specialize (Hhead h' eq_refl).
      unfold other_line in Hh'.
      rewrite (header_not_marker _ Hhead), Hhead in Hh'. simpl in Hh'.
      destruct (header_id h') as [id'|] eqn:Eid; [|discriminate Hh'].
      apply negb_true_iff, String.eqb_neq in Hh'.
      rewrite run_cons, (step_header _ _ id') by assumption. cbn [bind].
      name_state post' st3.
      destruct (run_other_entries id post' st3 id' Hf2 eq_refl Hh'
                  (ex_intro _ [] (lookup_insert_eq _ _ _)) Hrest) as (st4 & E4 & Hsd4).
      exists st4. split; [exact E4|].
      rename Hsd4 into Hsd3.
      rewrite Hsd3. simpl. rewrite lookup_insert_ne by assumption. exact Hsd2. }
  destruct Hrun as (st' & E & Hsd).
  exists (features st'), (sequence_data st'). split; [|exact Hsd].
  unfold parse_gff3. now rewrite E.
Qed.

End ParserProperties.

(** ** The parser on concrete files *)

Example parse_gff3_one_gene :
  parse_gff3 "gene" "ID" "YAL069W"
    [file_line "##gff-version 3"; gene_line "ID=YAL069W;Name=x";
     file_line "##FASTA"; file_line ">chrI first chromosome";
     file_line "ACGT"; file_line "ACGT"] =
  Ok ([("chrI", 2, 4, "-")], {[ "chrI" := ["ACGT"; "ACGT"] ]}).
Proof. reflexivity. Qed.

Example parse_gff3_no_match :
  parse_gff3 "gene" "ID" "other" [gene_line "ID=YAL069W"; file_line "##FASTA"] =
  Ok ([], ∅).
Proof. reflexivity. Qed.

Example parse_gff3_sequence_before_header :
  parse_gff3 "gene" "ID" "x" [file_line "##FASTA"; file_line "ACGT"] =
  Raise (KeyError None).
Proof. reflexivity. Qed.

Lemma fasta_marker_switches_mode_witness :
  is_marker (file_line "##FASTA") = true /\
  step "gene" "ID" "x" initial_state (file_line "##FASTA") =
  Ok {| features := []; fasta_start := true;
        sequence_data := ∅; current_sequence_id := None |}.
Proof.
  split; [reflexivity|].
  apply (proj1 (fasta_marker_switches_mode "gene" "ID" "x")). reflexivity.
Defined.

(** C3, as stated, fails: a line that only starts with '##FASTA', and a
    line with whitespace before it, switch the parser to sequence mode too. *)
Lemma fasta_marker_not_exact :
  rstrip (file_line "##FASTAX") <> "##FASTA" /\
  rstrip (file_line "  ##FASTA") <> "##FASTA" /\
  parse_gff3 "gene" "ID" "x"
    [file_line "##FASTAX"; file_line ">s"; file_line "AC"] =
  Ok ([], {[ "s" := ["AC"] ]}) /\
  parse_gff3 "gene" "ID" "x"
    [file_line "  ##FASTA"; file_line ">s"; file_line "AC"] =
  Ok ([], {[ "s" := ["AC"] ]}).
Proof. repeat split; discriminate. Qed.



Lemma fasta_entry_after_last_header_witness :
  header_id (file_line ">s again") = Some "s" /\
  exists feats sequences,
    parse_gff3 "gene" "ID" "x"
      ([file_line "##FASTA"; file_line ">s first"; file_line "TTTT"] ++
       file_line ">s again" ::
       [file_line "  AC "; file_line "##FASTA"; file_line "GT"] ++
       [file_line ">t"; file_line "CC"]) = Ok (feats, sequences) /\
    sequences !! "s" = Some ["AC"; "GT"].
Proof.
  split; [reflexivity|].
  eapply (fasta_entry_after_last_header "gene" "ID" "x"
            [file_line "##FASTA"; file_line ">s first"; file_line "TTTT"]
            [file_line "  AC "; file_line "##FASTA"; file_line "GT"]
            [file_line ">t"; file_line "CC"] (file_line ">s again") "s").
  - reflexivity.
  - reflexivity.
  - reflexivity.
  - repeat constructor.
  - intros h' H. injection H as <-. reflexivity.
  - repeat constructor.
Defined.

(** C5, as stated, fails: the lines are not kept verbatim. Leading
    whitespace is removed from a sequence line, and a line that starts with
    '##FASTA' inside the FASTA section is dropped, not appended. *)
Lemma fasta_lines_not_verbatim :
  parse_gff3 "gene" "ID" "x"
    [file_line "##FASTA"; file_line ">s"; file_line "  AC";
     file_line "##FASTA"; file_line "GT"] =
  Ok ([], {[ "s" := ["AC"; "GT"] ]}) /\
  join "" ["AC"; "GT"] <>
  join "" (map rstrip [file_line "  AC"; file_line "##FASTA"; file_line "GT"]).
Proof. split; [reflexivity | discriminate]. Qed.

(** * Further properties *)

(** ** reverse_complement *)

Lemma map_complement_length (l l' : list ascii) :
  map_result complement l = Ok l' ->
  length l' = length l /\ forallb is_base l' = true.
Proof.
  revert l'. induction l as [|c l IH]; intros l' H; simpl in H.
  - injection H as <-. split; reflexivity.
  - destruct (is_base c) eqn:Hc.
    + destruct (complement_base c Hc) as (c' & E1 & Hc' & _).
      rewrite E1 in H. cbn [bind] in H.
      destruct (map_result complement l) as [bs|]; cbn [bind] in H; [|discriminate H].
      injection H as <-. destruct (IH bs eq_refl) as [Hlen Hb].
      simpl. now rewrite Hlen, Hc', Hb.
    + rewrite (complement_not_base c Hc) in H. discriminate H.
Qed.

Lemma reverse_complement_ok_length (s r : string) :
  reverse_complement s = Ok r -> len r = len s.
Proof.
  unfold reverse_complement. intros H.
  destruct (map_result complement (rev (chars s))) as [l'|] eqn:E;
    cbn [bind] in H; [|discriminate H].
  injection H as <-. destruct (map_complement_length _ _ E) as [Hlen _].
  rewrite len_str, Hlen, length_rev, length_chars. reflexivity.
Qed.

(** X1. On a string over A, T, C and G, [reverse_complement] returns a
    string of the same length that is again over A, T, C and G. *)
Theorem reverse_complement_length (s : string) :
  forallb is_base (chars s) = true ->
  exists r, reverse_complement s = Ok r /\
            len r = len s /\ forallb is_base (chars r) = true.
Proof.
  intros H. rewrite <- forallb_rev in H.
  destruct (map_complement_bases _ H) as (l' & E & _ & _).
  destruct (map_complement_length _ _ E) as [Hlen Hb].
  exists (str l'). unfold reverse_complement. rewrite E. cbn [bind].
  repeat split.
  - rewrite len_str, Hlen, length_rev, length_chars. reflexivity.
  - now rewrite chars_str.
Qed.

Lemma reverse_complement_length_witness :
  forallb is_base (chars "ATCGG") = true /\
  exists r, reverse_complement "ATCGG" = Ok r /\
            len r = len "ATCGG" /\ forallb is_base (chars r) = true.
Proof.
  split; [reflexivity | apply (reverse_complement_length "ATCGG"); reflexivity].
Defined.

(** X2. The reverse complement of a concatenation is the reverse complement
    of the second part followed by that of the first; the second part is
    also the one looked at first, so its failure is the one reported. *)
Theorem reverse_complement_append (a b : string) :
  reverse_complement (a +:+ b) =
  do rb <- reverse_complement b;
  do ra <- reverse_complement a;
  Ok (rb +:+ ra).
Proof.
  unfold reverse_complement.
  rewrite chars_app, rev_app_distr, map_result_app.
  destruct (map_result complement (rev (chars b))) as [cb|]; cbn [bind]; [|reflexivity].
  destruct (map_result complement (rev (chars a))) as [ca|]; cbn [bind]; [|reflexivity].
  now rewrite str_app.
Qed.

(** ** get_sequence *)

Lemma take_add_split {A : Type} (n m : nat) (l : list A) :
  take (n + m) l = (take n l ++ take m (drop n l))%list.
Proof.
  revert l. induction n as [|n IH]; intros l; [reflexivity|].
  destruct l as [|x l]; simpl; [now rewrite take_nil | now rewrite IH].
Qed.

Lemma py_slice_adjacent (s : string) (a b c : Z) :
  0 <= a -> a <= b -> b <= c ->
  py_slice s a b +:+ py_slice s b c = py_slice s a c.
Proof.
  intros Ha Hab Hbc.
  rewrite !py_slice_nonneg, !range_chars_take_drop by lia.
  rewrite <- str_app. f_equal.
  replace (Z.to_nat (c - a)) with (Z.to_nat (b - a) + Z.to_nat (c - b))%nat by lia.
  rewrite take_add_split, drop_drop.
  now replace (Z.to_nat a + Z.to_nat (b - a))%nat with (Z.to_nat b) by lia.
Qed.

Lemma py_slice_length (s : string) (a b : Z) :
  0 <= a -> a <= b -> b <= len s -> len (py_slice s a b) = b - a.
Proof.
  intros Ha Hab Hb.
  rewrite py_slice_nonneg, range_chars_take_drop, len_str by lia.
  rewrite length_take, length_drop, length_chars. unfold len in Hb. lia.
Qed.

(** X3. With 1-based coordinates inside the sequence,
    [1 <= start <= end + 1] and [end <= length], the extracted sequence has
    [end - start + 1] characters on either strand; on a strand other than
    '-' the extraction always returns. *)
Theorem get_sequence_length (sequence_data : gmap string (list string))
    (seqid : string) (lines : list string) (start end_ : Z) (strand : string) :
  sequence_data !! seqid = Some lines ->
  1 <= start -> start <= end_ + 1 -> end_ <= len (join "" lines) ->
  (String.eqb strand "-" = false ->
   exists sq, get_sequence sequence_data seqid start end_ strand = Ok sq) /\
  (forall sq, get_sequence sequence_data seqid start end_ strand = Ok sq ->
              len sq = end_ - start + 1).
Proof.
  intros H Hs Hse He.
  rewrite (get_sequence_unfold _ _ _ _ _ _ H).
  pose proof (py_slice_length (join "" lines) (start - 1) end_
                ltac:(lia) ltac:(lia) He) as Hlen.
  split.
  - intros ->. eexists. reflexivity.
  - intros sq Hsq. destruct (String.eqb strand "-").
    + apply reverse_complement_ok_length in Hsq. lia.
    + injection Hsq as <-. lia.
Qed.

Lemma get_sequence_length_witness :
  example_sequences !! "chrI" = Some ["ACGTACGT"] /\
  (forall sq, get_sequence example_sequences "chrI" 3 7 "-" = Ok sq -> len sq = 7 - 3 + 1).
Proof.
  split; [reflexivity|].
  apply (get_sequence_length example_sequences "chrI" ["ACGTACGT"] 3 7 "-" eq_refl);
    [lia | lia | vm_compute; discriminate].
Defined.

(** X4. Two adjacent ranges [start..mid] and [mid+1..end] of one sequence
    extract, on a strand other than '-', to two strings whose concatenation
    is the extraction of [start..end]. *)
Theorem get_sequence_adjacent (sequence_data : gmap string (list string))
    (seqid : string) (lines : list string) (start mid end_ : Z) (strand : string) :
  sequence_data !! seqid = Some lines ->
  String.eqb strand "-" = false ->
  1 <= start -> start <= mid + 1 -> mid <= end_ ->
  exists left right,
    get_sequence sequence_data seqid start mid strand = Ok left /\
    get_sequence sequence_data seqid (mid + 1) end_ strand = Ok right /\
    get_sequence sequence_data seqid start end_ strand = Ok (left +:+ right).
Proof.
  intros H Hstrand Hs Hm He.
  rewrite !(get_sequence_unfold _ _ _ _ _ _ H), Hstrand.
  do 2 eexists. repeat split.
  replace (mid + 1 - 1) with mid by lia.
  now rewrite py_slice_adjacent by lia.
Qed.

Lemma get_sequence_adjacent_witness :
  exists left right,
    get_sequence example_sequences "chrI" 2 4 "+" = Ok left /\
    get_sequence example_sequences "chrI" (4 + 1) 7 "+" = Ok right /\
    get_sequence example_sequences "chrI" 2 7 "+" = Ok (left +:+ right).
Proof.
  apply (get_sequence_adjacent example_sequences "chrI" ["ACGTACGT"] 2 4 7 "+");
    [reflexivity | reflexivity | lia | lia | lia].
Defined.

(** ** format_fasta *)

Lemma len_append (a b : string) : len (a +:+ b) = len a + len b.
Proof.
  unfold len. rewrite <- !length_chars, chars_app, length_app. lia.
Qed.

Lemma join_cons_cons (sep a b : string) (ls : list string) :
  join sep (a :: b :: ls) = a +:+ sep +:+ join sep (b :: ls).
Proof. reflexivity. Qed.

Lemma len_join_lines (ls : list (list ascii)) :
  len (join nl (map str ls)) =
  Z.of_nat (length (concat ls)) + Z.max 0 (Z.of_nat (length ls) - 1).
Proof.
  induction ls as [|l [|l' ls] IH]; [reflexivity | |].
  - change (join nl (map str [l])) with (str l).
    rewrite len_str. simpl. rewrite app_nil_r. lia.
  - change (map str (l :: l' :: ls)) with (str l :: str l' :: map str ls).
    rewrite join_cons_cons, !len_append.
    change (str l' :: map str ls) with (map str (l' :: ls)).
    rewrite IH, len_str. change (len nl) with 1.
    change (concat (l :: l' :: ls)) with (l ++ concat (l' :: ls))%list.
    rewrite length_app. simpl length. lia.
Qed.

(** X5. For a line length [n >= 1] the formatter returns, and its output
    has the characters of the header and of the sequence, the '>' and the
    newline of the header line, and one newline between two consecutive
    sequence lines, of which there are [ceil(length / n)]. *)
Theorem format_fasta_output_length (header sequence : string) (n : Z) :
  1 <= n ->
  exists out,
    format_fasta header sequence n = Ok out /\
    len out = len header + 2 + len sequence +
              Z.max 0 ((len sequence + n - 1) / n - 1).
Proof.
  intros Hn. eexists. split; [apply format_fasta_lines, Hn|].
  destruct (line_count_bounds n (len sequence) Hn ltac:(unfold len; lia))
    as (Hm0 & Hm1 & Hm2).
  destruct (pieces_spec (Z.to_nat n) ltac:(lia)
              (Z.to_nat ((len sequence - 0 + n - 1) / n)) (chars sequence))
    as (Hcat & _ & _).
  { rewrite length_chars. unfold len in *. nia. }
  { rewrite length_chars. unfold len in *. nia. }
  rewrite !len_append, len_join_lines, Hcat, length_map, length_seq, length_chars.
  change (len ">") with 1. change (len nl) with 1. fold (len sequence).
  replace (len sequence - 0 + n - 1) with (len sequence + n - 1) in * by lia.
  lia.
Qed.

Lemma format_fasta_output_length_witness :
  1 <= 4 /\
  exists out,
    format_fasta "h" "ACGTACGTAC" 4 = Ok out /\
    len out = len "h" + 2 + len "ACGTACGTAC" +
              Z.max 0 ((len "ACGTACGTAC" + 4 - 1) / 4 - 1).
Proof.
  split; [lia | apply (format_fasta_output_length "h" "ACGTACGTAC" 4); lia].
Defined.

Lemma split_chars_concat (sep : ascii) (l : list ascii) :
  concat (split_chars sep l) = List.filter (fun c => negb (Ascii.eqb c sep)) l.
Proof.
  induction l as [|c l IH]; [reflexivity|].
  simpl. destruct (Ascii.eqb c sep); simpl; [exact IH|].
  destruct (split_chars sep l) as [|w ws] eqn:E;
    [now apply split_chars_not_nil in E|].
  simpl in *. now rewrite IH.
Qed.

Lemma split_chars_first (sep : ascii) (a rest : list ascii) :
  forallb (fun c => negb (Ascii.eqb c sep)) a = true ->
  split_chars sep (a ++ sep :: rest) = a :: split_chars sep rest.
Proof.
  induction a as [|c a IH]; intros H; simpl in *.
  - now rewrite Ascii.eqb_refl.
  - apply andb_prop in H as [Hc Ha]. apply negb_true_iff in Hc.
    now rewrite Hc, (IH Ha).
Qed.

Lemma filter_all {A : Type} (p : A -> bool) (l : list A) :
  forallb p l = true -> List.filter p l = l.
Proof.
  induction l as [|a l IH]; intros H; simpl in *; [reflexivity|].
  apply andb_prop in H as [Ha Hl]. now rewrite Ha, (IH Hl).
Qed.

Lemma filter_join_lines (ls : list (list ascii)) :
  List.filter not_newline (chars (join nl (map str ls))) =
  List.filter not_newline (concat ls).
Proof.
  induction ls as [|l [|l' ls] IH]; [reflexivity | |].
  - change (join nl (map str [l])) with (str l).
    rewrite chars_str. simpl. now rewrite app_nil_r.
  - change (map str (l :: l' :: ls)) with (str l :: str l' :: map str ls).
    rewrite join_cons_cons, !chars_app, chars_str.
    change (str l' :: map str ls) with (map str (l' :: ls)).
    change (concat (l :: l' :: ls)) with (l ++ concat (l' :: ls))%list.
    rewrite !List.filter_app, IH. reflexivity.
Qed.

(** X6. Reading the output back: for a line length [n >= 1] and a header
    without newline, the first line of the output is '>' and the header, and
    the remaining lines put end to end are the sequence (less its newline
    characters, should it hold any). *)
Theorem format_fasta_read_back (header sequence : string) (n : Z) :
  1 <= n ->
  forallb not_newline (chars header) = true ->
  exists out,
    format_fasta header sequence n = Ok out /\
    head (split nl_char out) = Some (">" +:+ header) /\
    join "" (tail (split nl_char out)) =
      str (List.filter not_newline (chars sequence)) /\
    (forallb not_newline (chars sequence) = true ->
     join "" (tail (split nl_char out)) = sequence).
Proof.
  intros Hn Hh. eexists. split; [apply format_fasta_lines, Hn|].
  destruct (line_count_bounds n (len sequence) Hn ltac:(unfold len; lia))
    as (Hm0 & Hm1 & Hm2).
  destruct (pieces_spec (Z.to_nat n) ltac:(lia)
              (Z.to_nat ((len sequence - 0 + n - 1) / n)) (chars sequence))
    as (Hcat & _ & _).
  { rewrite length_chars. unfold len in *. nia. }
  { rewrite length_chars. unfold len in *. nia. }
  set (ps := map _ (seq 0 _)) in *.
  assert (Hsplit : split nl_char (">" +:+ header +:+ nl +:+ join nl (map str ps)) =
                   (">" +:+ header) :: map str (split_chars nl_char (chars (join nl (map str ps))))).
  { unfold split. rewrite !chars_app.
    change (chars ">") with [">"%char]. change (chars nl) with [nl_char].
    change ([">"%char] ++ chars header ++ [nl_char] ++ chars (join nl (map str ps)))%list
      with ((">"%char :: chars header) ++ nl_char :: chars (join nl (map str ps)))%list.
    rewrite split_chars_first by exact Hh.
    change (">" +:+ header) with (String ">" header).
    rewrite <- (str_chars header) at 2. reflexivity. }
  rewrite Hsplit. simpl head. simpl tail.
  assert (Hjoin : join "" (map str (split_chars nl_char (chars (join nl (map str ps))))) =
                  str (List.filter not_newline (chars sequence))).
  { rewrite join_empty_str, split_chars_concat.
    fold not_newline. now rewrite filter_join_lines, Hcat. }
  repeat split; [exact Hjoin|].
  intros Hs. now rewrite Hjoin, (filter_all _ _ Hs), str_chars.
Qed.

Lemma format_fasta_read_back_witness :
  1 <= 4 /\ forallb not_newline (chars "h") = true /\
  exists out,
    format_fasta "h" "ACGTACGTAC" 4 = Ok out /\
    head (split nl_char out) = Some (">" +:+ "h") /\
    join "" (tail (split nl_char out)) =
      str (List.filter not_newline (chars "ACGTACGTAC")) /\
    (forallb not_newline (chars "ACGTACGTAC") = true ->
     join "" (tail (split nl_char out)) = "ACGTACGTAC").
Proof.
  split; [lia|]. split; [reflexivity|].
  apply (format_fasta_read_back "h" "ACGTACGTAC" 4); [lia | reflexivity].
Defined.

(** ** parse_gff3: whitespace around a line *)

Lemma lstrip_spaces (w l : list ascii) :
  forallb isspace w = true -> lstrip_chars (w ++ l) = lstrip_chars l.
Proof.
  induction w as [|c w IH]; intros H; simpl in *; [reflexivity|].
  apply andb_prop in H as [Hc Hw]. now rewrite Hc, (IH Hw).
Qed.

Lemma lstrip_all_spaces (w : list ascii) :
  forallb isspace w = true -> lstrip_chars w = [].
Proof.
  intros H. rewrite <- (app_nil_r w). now rewrite lstrip_spaces.
Qed.

Lemma rstrip_spaces (l w : list ascii) :
  forallb isspace w = true -> rstrip_chars (l ++ w) = rstrip_chars l.
Proof.
  intros H. unfold rstrip_chars.
  rewrite rev_app_distr, lstrip_spaces; [reflexivity | now rewrite forallb_rev].
Qed.

Lemma strip_chars_padding (w l w' : list ascii) :
  forallb isspace w = true -> forallb isspace w' = true ->
  rstrip_chars (lstrip_chars (w ++ l ++ w')) = rstrip_chars (lstrip_chars l).
Proof.
  intros Hw Hw'. rewrite lstrip_spaces by assumption. clear w Hw.
  induction l as [|c l IH]; simpl.
  - now rewrite lstrip_all_spaces.
  - destruct (isspace c); [exact IH|].
    change (c :: l ++ w')%list with ((c :: l) ++ w')%list.
    now apply rstrip_spaces.
Qed.

Lemma strip_padding (w s w' : string) :
  forallb isspace (chars w) = true -> forallb isspace (chars w') = true ->
  strip (w +:+ s +:+ w') = strip s.
Proof.
  intros Hw Hw'. unfold strip. rewrite !chars_app.
  now rewrite strip_chars_padding.
Qed.

Section ParserInvariants.

Variables feature_type attribute_key attribute_value : string.

Abbreviation step' := (step feature_type attribute_key attribute_value).
Abbreviation run' := (run feature_type attribute_key attribute_value).
Abbreviation line_feature' :=
  (line_feature feature_type attribute_key attribute_value).

(** X7. Whitespace before and after a line (spaces, tabs, a carriage
    return before the newline) never changes what the parser does with the
    line, in either mode. *)
Theorem step_ignores_surrounding_whitespace (st : state) (w raw w' : string) :
  forallb isspace (chars w) = true -> forallb isspace (chars w') = true ->
  step' st (w +:+ raw +:+ w') = step' st raw.
Proof.
  intros Hw Hw'. unfold step. now rewrite strip_padding.
Qed.

Lemma parse_attributes_error (attributes : string) (e : exn) :
  parse_attributes attributes = Raise e -> e = ValueError.
Proof.
  unfold parse_attributes.
  generalize (map (split "=") (split ";" attributes)). intros l H.
  assert (Hl : forall e', map_result unpack_pair l = Raise e' -> e' = ValueError).
  { clear H. induction l as [|parts l IH]; intros e' H; simpl in H; [discriminate H|].
    destruct (unpack_pair parts) as [kv|e0] eqn:Ep; cbn [bind] in H.
    - destruct (map_result unpack_pair l); cbn [bind] in H; [discriminate H|].
      injection H as <-. now apply IH.
    - injection H as <-. unfold unpack_pair in Ep.
      destruct parts as [|? [|? [|? ?]]]; congruence. }
  destruct (map_result unpack_pair l) eqn:E; cbn [bind] in H; [discriminate H|].
  injection H as <-. now apply Hl.
Qed.

Lemma py_int_error (s : string) (e : exn) : py_int s = Raise e -> e = ValueError.
Proof.
  unfold py_int. destruct (int_strip (chars s)) as [|c l].
  - destruct (int_digits 0 false []); [destruct (_ <=? _)%nat|]; congruence.
  - destruct (Ascii.eqb c "-"); [|destruct (Ascii.eqb c "+")];
      (destruct (int_digits 0 false _); [destruct (_ <=? _)%nat|]; congruence).
Qed.

(** What one line does before the FASTA section. *)
Lemma step_annotation_effect (st st' : state) (raw : string) :
  fasta_start st = false -> is_marker raw = false ->
  step' st raw = Ok st' ->
  features st' = (features st ++ feature_list (line_feature' raw))%list /\
  fasta_start st' = false /\
  sequence_data st' = sequence_data st /\
  current_sequence_id st' = current_sequence_id st.
Proof.
  intros Hf Hm H.
  rewrite (step_annotation _ _ _ _ _ Hm Hf) in H.
  unfold annotation_line in H. unfold line_feature.
  assert (Hsame : features st = (features st ++ feature_list None)%list /\
                  fasta_start st = false /\
                  sequence_data st = sequence_data st /\
                  current_sequence_id st = current_sequence_id st)
    by (simpl; now rewrite app_nil_r).
  destruct (startswith "#" (strip raw)); [now injection H as <-|].
  destruct (split tab (strip raw))
    as [|seqid [|source [|ftype [|start [|end_ [|score [|strand [|phase [|attributes [|? ?]]]]]]]]]];
    try (now injection H as <-).
  destruct (String.eqb ftype feature_type); simpl in H; [|now injection H as <-].
  destruct (parse_attributes attributes) as [d|]; cbn [bind] in H; [|discriminate H].
  destruct (decide (d !! attribute_key = Some attribute_value)).
  - destruct (py_int start) as [s0|]; cbn [bind] in H; [|discriminate H].
    destruct (py_int end_) as [e0|]; cbn [bind] in H; [|discriminate H].
    injection H as <-. simpl. auto.
  - injection H as <-.
    destruct (py_int start), (py_int end_); exact Hsame.
Qed.

Lemma step_annotation_error (st : state) (raw : string) (e : exn) :
  fasta_start st = false -> is_marker raw = false ->
  step' st raw = Raise e -> e = ValueError.
Proof.
  intros Hf Hm H.
  rewrite (step_annotation _ _ _ _ _ Hm Hf) in H.
  unfold annotation_line in H.
  destruct (startswith "#" (strip raw)); [discriminate H|].
  destruct (split tab (strip raw))
    as [|seqid [|source [|ftype [|start [|end_ [|score [|strand [|phase [|attributes [|? ?]]]]]]]]]];
    try discriminate H.
  destruct (negb _); [discriminate H|].
  destruct (parse_attributes attributes) as [d|e0] eqn:Ea; cbn [bind] in H.
  - destruct (decide _); [|discriminate H].
    destruct (py_int start) as [s|e1] eqn:Es; cbn [bind] in H.
    + destruct (py_int end_) as [e2|e3] eqn:Ee; cbn [bind] in H; [discriminate H|].
      injection H as <-. now apply py_int_error in Ee.
    + injection H as <-. now apply py_int_error in Es.
  - injection H as <-. now apply parse_attributes_error in Ea.
Qed.

Lemma run_annotation (ann : list string) :
  forall (st st' : state),
    fasta_start st = false ->
    Forall (fun raw => is_marker raw = false) ann ->
    run' ann st = Ok st' ->
    features st' = (features st ++ omap line_feature' ann)%list /\
    fasta_start st' = false /\
    sequence_data st' = sequence_data st /\
    current_sequence_id st' = current_sequence_id st.
Proof.
  induction ann as [|raw ann IH]; intros st st' Hf Hann H.
  - rewrite run_nil in H. injection H as <-. simpl. now rewrite app_nil_r.
  - inversion Hann as [|? ? Hraw Hrest]; subst.
    rewrite run_cons in H.
    destruct (step' st raw) as [st1|] eqn:E1; cbn [bind] in H; [|discriminate H].
    destruct (step_annotation_effect _ _ _ Hf Hraw E1) as (F1 & Hf1 & S1 & C1).
    destruct (IH st1 st' Hf1 Hrest H) as (F2 & Hf2 & S2 & C2).
    repeat split; [|assumption|congruence|congruence].
    rewrite F2, F1, <- app_assoc. f_equal.
    simpl. destruct (line_feature' raw); reflexivity.
Qed.

Lemma run_annotation_error (ann : list string) :
  forall (st : state) (e : exn),
    fasta_start st = false ->
    Forall (fun raw => is_marker raw = false) ann ->
    run' ann st = Raise e -> e = ValueError.
Proof.
  induction ann as [|raw ann IH]; intros st e Hf Hann H.
  - rewrite run_nil in H. discriminate H.
  - inversion Hann as [|? ? Hraw Hrest]; subst.
    rewrite run_cons in H.
    destruct (step' st raw) as [st1|e1] eqn:E1; cbn [bind] in H.
    + destruct (step_annotation_effect _ _ _ Hf Hraw E1) as (_ & Hf1 & _).
      exact (IH st1 e Hf1 Hrest H).
    + injection H as <-. exact (step_annotation_error _ _ _ Hf Hraw E1).
Qed.

Lemma step_fasta_features (st st' : state) (raw : string) :
  (fasta_start st = true \/ is_marker raw = true) ->
  step' st raw = Ok st' -> features st' = features st.
Proof.
  intros Hmode H. destruct (is_marker raw) eqn:Em.
  - rewrite step_marker in H by assumption. now injection H as <-.
  - destruct Hmode as [Hf|?]; [|discriminate].
    rewrite step_fasta in H by assumption. unfold fasta_line in H.
    destruct (startswith ">" (strip raw)).
    + destruct (split_ws _); [discriminate H | now injection H as <-].
    + destruct (current_sequence_id st); [|discriminate H].
      destruct (sequence_data st !! s); [|discriminate H].
      now injection H as <-.
Qed.

Lemma run_fasta_features (lines : list string) :
  forall (st st' : state),
    fasta_start st = true -> run' lines st = Ok st' -> features st' = features st.
Proof.
  induction lines as [|raw lines IH]; intros st st' Hf H.
  - rewrite run_nil in H. now injection H as <-.
  - rewrite run_cons in H.
    destruct (step' st raw) as [st1|] eqn:E1; cbn [bind] in H; [|discriminate H].
    rewrite (IH st1 st'); [| |exact H].
    + apply (step_fasta_features _ _ _ (or_introl Hf) E1).
    + rewrite (step_fasta_start _ _ _ _ _ _ E1), Hf. apply orb_true_r.
Qed.

(** X8. The features returned are, in file order, the features of the
    lines before the first '##FASTA' line, each line deciding on its own
    whether it contributes one; no line of the FASTA section adds or
    removes a feature. *)
Theorem parse_gff3_features_in_order (ann rest : list string)
    (feats : list feature) (sequences : gmap string (list string)) :
  Forall (fun raw => is_marker raw = false) ann ->
  (forall m, head rest = Some m -> is_marker m = true) ->
  parse_gff3 feature_type attribute_key attribute_value (ann ++ rest) =
    Ok (feats, sequences) ->
  feats = omap line_feature' ann.
Proof.
  intros Hann Hrest H. unfold parse_gff3 in H. rewrite run_app in H.
  destruct (run' ann initial_state) as [st1|] eqn:E1; cbn [bind] in H; [|discriminate H].
  destruct (run_annotation ann initial_state st1 eq_refl Hann E1) as (F1 & Hf1 & _ & _).
  simpl in F1.
  destruct rest as [|m rest'].
  - rewrite run_nil in H. cbn [bind] in H. injection H as <- _. exact F1.
  - specialize (Hrest m eq_refl). rewrite run_cons in H.
    destruct (step' st1 m) as [st2|] eqn:E2; cbn [bind] in H; [|discriminate H].
    destruct (run' rest' st2) as [st3|] eqn:E3; cbn [bind] in H; [|discriminate H].
    injection H as <- _.
    rewrite (run_fasta_features rest' st2 st3); [| |exact E3].
    + rewrite (step_fasta_features _ _ _ (or_intror Hrest) E2). exact F1.
    + rewrite (step_fasta_start _ _ _ _ _ _ E2), Hrest. reflexivity.
Qed.

(** X9. A file without a '##FASTA' line: when the parse returns, the
    features are those of all its lines and the sequence map is empty; when
    it raises, the exception is a [ValueError] (attributes or coordinates of
    a line of the requested type). *)
Theorem parse_gff3_without_fasta (lines : list string) :
  Forall (fun raw => is_marker raw = false) lines ->
  (forall feats sequences,
      parse_gff3 feature_type attribute_key attribute_value lines =
        Ok (feats, sequences) ->
      feats = omap line_feature' lines /\ sequences = ∅) /\
  (forall e,
      parse_gff3 feature_type attribute_key attribute_value lines = Raise e ->
      e = ValueError).
Proof.
  intros Hlines. unfold parse_gff3. split.
  - intros feats sequences H.
    destruct (run' lines initial_state) as [st1|] eqn:E1; cbn [bind] in H; [|discriminate H].
    destruct (run_annotation lines initial_state st1 eq_refl Hlines E1) as (F1 & _ & S1 & _).
    injection H as <- <-. split; [exact F1 | exact S1].
  - intros e H.
    destruct (run' lines initial_state) as [st1|e1] eqn:E1; cbn [bind] in H; [discriminate H|].
    injection H as <-. exact (run_annotation_error lines initial_state e1 eq_refl Hlines E1).
Qed.

(** ** parse_gff3: the exceptions of the FASTA section *)

Lemma step_current_entry (st st' : state) (raw : string) :
  current_entry_exists st -> step' st raw = Ok st' -> current_entry_exists st'.
Proof.
  unfold current_entry_exists. intros Hinv H.
  destruct (is_marker raw) eqn:Em.
  - rewrite step_marker in H by assumption. now injection H as <-.
  - destruct (fasta_start st) eqn:Ef.
    + rewrite step_fasta in H by assumption. unfold fasta_line in H.
      destruct (startswith ">" (strip raw)).
      * destruct (split_ws _) as [|id ?]; [discriminate H|].
        injection H as <-. simpl. rewrite lookup_insert_eq. now eexists.
      * destruct (current_sequence_id st) as [id|] eqn:Ec; [|discriminate H].
        destruct (sequence_data st !! id); [|discriminate H].
        injection H as <-. simpl. rewrite lookup_insert_eq. now eexists.
    + destruct (step_annotation_effect _ _ _ Ef Em H) as (_ & _ & -> & ->).
      exact Hinv.
Qed.

Lemma step_fasta_error (st : state) (raw : string) (e : exn) :
  fasta_start st = true -> current_entry_exists st ->
  step' st raw = Raise e -> e = KeyError None \/ e = IndexError.
Proof.
  unfold current_entry_exists. intros Hf Hinv H.
  destruct (is_marker raw) eqn:Em.
  - rewrite step_marker in H by assumption. discriminate H.
  - rewrite step_fasta in H by assumption. unfold fasta_line in H.
    destruct (startswith ">" (strip raw)).
    + destruct (split_ws _); [|discriminate H]. injection H as <-. now right.
    + destruct (current_sequence_id st) as [id|]; [|injection H as <-; now left].
      destruct Hinv as [acc Hacc]. rewrite Hacc in H. discriminate H.
Qed.

Lemma run_fasta_error (lines : list string) :
  forall (st : state) (e : exn),
    fasta_start st = true -> current_entry_exists st ->
    run' lines st = Raise e -> e = KeyError None \/ e = IndexError.
Proof.
  induction lines as [|raw lines IH]; intros st e Hf Hinv H.
  - rewrite run_nil in H. discriminate H.
  - rewrite run_cons in H.
    destruct (step' st raw) as [st1|e1] eqn:E1; cbn [bind] in H.
    + apply (IH st1 e); [| |exact H].
      * rewrite (step_fasta_start _ _ _ _ _ _ E1), Hf. apply orb_true_r.
      * exact (step_current_entry _ _ _ Hinv E1).
    + injection H as <-. exact (step_fasta_error _ _ _ Hf Hinv E1).
Qed.

(** X10. The exceptions of the parser by section. Before the first
    '##FASTA' line the only exception is a [ValueError]. From that line on
    the only exceptions are the [KeyError] of a sequence line met before any
    header, whose key is None, and the [IndexError] of a header without
    identifier: the accumulator of an identifier that a header has set is
    always found. *)
Theorem parse_gff3_exceptions (ann rest : list string) (m : string) (e : exn) :
  Forall (fun raw => is_marker raw = false) ann ->
  is_marker m = true ->
  parse_gff3 feature_type attribute_key attribute_value (ann ++ m :: rest) = Raise e ->
  (run' ann initial_state = Raise e /\ e = ValueError) \/
  ((exists st, run' ann initial_state = Ok st) /\
   (e = KeyError None \/ e = IndexError)).
Proof.
  intros Hann Hm H. unfold parse_gff3 in H. rewrite run_app in H.
  destruct (run' ann initial_state) as [st1|e1] eqn:E1; cbn [bind] in H.
  - right. split; [now exists st1|].
    destruct (run_annotation ann initial_state st1 eq_refl Hann E1) as (_ & _ & S1 & C1).
    destruct (run' (m :: rest) st1) as [st2|e2] eqn:E2; cbn [bind] in H; [discriminate H|].
    injection H as <-. rewrite run_cons, step_marker in E2 by assumption.
    cbn [bind] in E2.
    eapply run_fasta_error; [| |exact E2]; [reflexivity|].
    unfold current_entry_exists. simpl. now rewrite C1.
  - left. injection H as <-. split; [reflexivity|].
    exact (run_annotation_error ann initial_state e1 eq_refl Hann E1).
Qed.

(** X11. A line that is neither a header nor a '##FASTA' line, a blank
    line included, and that comes right after the '##FASTA' line of a file
    whose annotation part parses, makes the parse raise the [KeyError] of
    the key None: there is no current identifier yet. *)
Theorem parse_gff3_sequence_line_before_header (ann rest : list string)
    (m raw : string) (st : state) :
  Forall (fun l => is_marker l = false) ann ->
  run' ann initial_state = Ok st ->
  is_marker m = true ->
  is_marker raw = false -> is_header raw = false ->
  parse_gff3 feature_type attribute_key attribute_value (ann ++ m :: raw :: rest) =
  Raise (KeyError None).
Proof.
  intros Hann E Hm Hraw Hh.
  destruct (run_annotation ann initial_state st eq_refl Hann E) as (_ & _ & _ & C1).
  unfold parse_gff3. rewrite run_app, E. cbn [bind].
  rewrite run_cons, step_marker by assumption. cbn [bind].
  rewrite run_cons, step_fasta by (assumption || reflexivity).
  unfold fasta_line. unfold is_header in Hh. rewrite Hh. simpl.
  rewrite C1. reflexivity.
Qed.

(** ** parse_gff3: a header without identifier *)

Lemma py_slice_from_tail (c : ascii) (rest : string) :
  py_slice_from (String c rest) 1 = rest.
Proof.
  unfold py_slice_from, py_slice, slice_index, len. simpl String.length.
  destruct (Z.ltb_spec 1 0) as [?|_]; [lia|].
  destruct (Z.ltb_spec (Z.of_nat (S (String.length rest))) 0) as [?|_]; [lia|].
  rewrite Z.min_id, Z.min_l by lia.
  change (chars (String c rest)) with (c :: chars rest).
  change (Z.to_nat 1) with 1%nat.
  change (drop 1 (c :: chars rest)) with (chars rest).
  rewrite take_ge by (rewrite length_chars; lia).
  apply str_chars.
Qed.

Lemma split_ws_chars_nil (l cur : list ascii) :
  split_ws_chars cur l = [] -> cur = [] /\ forallb isspace l = true.
Proof.
  revert cur. induction l as [|c l IH]; intros cur H; simpl in *.
  - destruct cur; [split; reflexivity | discriminate H].
  - destruct (isspace c).
    + destruct cur; [|discriminate H].
      destruct (IH [] H) as [_ Hl]. now split.
    + destruct (IH (c :: cur) H) as [Hcur _]. discriminate Hcur.
Qed.

Lemma lstrip_head (l t : list ascii) (c : ascii) :
  lstrip_chars l = c :: t -> isspace c = false.
Proof.
  induction l as [|x l IH]; intros H; simpl in H; [discriminate H|].
  destruct (isspace x) eqn:Ex; [now apply IH|].
  now injection H as <- _.
Qed.

Lemma rstrip_last (l x : list ascii) (c : ascii) :
  rstrip_chars l = (x ++ [c])%list -> isspace c = false.
Proof.
  unfold rstrip_chars. intros H.
  apply (f_equal (@rev ascii)) in H.
  rewrite rev_involutive, rev_app_distr in H. simpl in H.
  exact (lstrip_head _ _ _ H).
Qed.

Lemma all_spaces_last (l x : list ascii) (c : ascii) :
  forallb isspace l = true -> l = (x ++ [c])%list -> isspace c = true.
Proof.
  intros H ->. rewrite forallb_app in H. apply andb_prop in H as [_ H].
  simpl in H. now rewrite andb_true_r in H.
Qed.

(** X12. In the FASTA section a line raises an [IndexError] exactly when,
    once stripped, it is the single character '>': a header always has an
    identifier unless nothing follows the '>'. *)
Theorem step_header_without_identifier (st : state) (raw : string) :
  fasta_start st = true ->
  (step' st raw = Raise IndexError <-> strip raw = ">").
Proof.
  intros Hf. split.
  - intros H. destruct (is_marker raw) eqn:Em.
    { rewrite step_marker in H by assumption. discriminate H. }
    rewrite step_fasta in H by assumption. unfold fasta_line in H.
    destruct (startswith ">" (strip raw)) eqn:Eh.
    + destruct (strip raw) as [|c rest] eqn:Es; [discriminate Eh|].
      unfold startswith in Eh.
      change (String.prefix ">" (String c rest))
        with (if ascii_dec ">" c then String.prefix "" rest else false) in Eh.
      destruct (ascii_dec ">" c) as [<-|]; [|discriminate Eh].
      rewrite py_slice_from_tail in H.
      destruct (split_ws rest) eqn:Ew; [|discriminate H].
      unfold split_ws in Ew. apply map_eq_nil in Ew.
      apply split_ws_chars_nil in Ew as [_ Hsp].
      destruct (chars rest) as [|a l] eqn:Er.
      * rewrite <- (str_chars rest), Er. reflexivity.
      * exfalso.
        destruct (exists_last (l := a :: l)) as (x & d & Hx); [discriminate|].
        pose proof (all_spaces_last _ _ _ Hsp Hx) as Hd.
        assert (Hstrip : rstrip_chars (lstrip_chars (chars raw)) =
                         ((">"%char :: x) ++ [d])%list).
        { apply (f_equal chars) in Es. unfold strip in Es.
          rewrite chars_str in Es. rewrite Es. simpl. now rewrite Er, Hx. }
        apply rstrip_last in Hstrip. congruence.
    + destruct (current_sequence_id st); [|discriminate H].
      destruct (sequence_data st !! s); discriminate H.
  - intros Hs. unfold step. rewrite Hs, Hf. reflexivity.
Qed.

End ParserInvariants.

(** ** parse_gff3: a repeated attribute *)

Lemma split_chars_no_sep (sep : ascii) (b : list ascii) :
  forallb (fun c => negb (Ascii.eqb c sep)) b = true -> split_chars sep b = [b].
Proof.
  induction b as [|c b IH]; intros H; simpl in *; [reflexivity|].
  apply andb_prop in H as [Hc Hb]. apply negb_true_iff in Hc.
  now rewrite Hc, (IH Hb).
Qed.

Lemma split_chars_app_last (sep : ascii) (a b : list ascii) :
  forallb (fun c => negb (Ascii.eqb c sep)) b = true ->
  split_chars sep (a ++ sep :: b) = (split_chars sep a ++ [b])%list.
Proof.
  intros Hb. induction a as [|c a IH]; simpl.
  - now rewrite Ascii.eqb_refl, split_chars_no_sep.
  - rewrite IH. destruct (Ascii.eqb c sep); [reflexivity|].
    destruct (split_chars sep a) as [|w ws] eqn:E;
      [now apply split_chars_not_nil in E | reflexivity].
Qed.

Lemma dict_of_pairs_snoc (pairs : list (string * string)) (key value : string) :
  dict_of_pairs (pairs ++ [(key, value)]) = <[key := value]> (dict_of_pairs pairs).
Proof. unfold dict_of_pairs. now rewrite fold_left_app. Qed.

Lemma plain_chars_split (sep : ascii) (l : list ascii) :
  (sep = ";"%char \/ sep = "="%char) ->
  forallb plain_char l = true ->
  forallb (fun c => negb (Ascii.eqb c sep)) l = true.
Proof.
  intros Hsep. induction l as [|c l IH]; intros H; simpl in *; [reflexivity|].
  apply andb_prop in H as [Hc Hl]. rewrite (IH Hl), andb_true_r.
  unfold plain_char in Hc. apply andb_prop in Hc as [H1 H2].
  destruct Hsep as [-> | ->]; assumption.
Qed.

(** X13. A key given twice: when the attributes parse to a map, the same
    attributes followed by ';', a key, '=' and a value (key and value free
    of ';' and '=') parse to that map with the key set to the value, whatever
    the key was mapped to before. The later occurrence of a key wins. *)
Theorem parse_attributes_append (attributes key value : string)
    (d : gmap string string) :
  parse_attributes attributes = Ok d ->
  forallb plain_char (chars key) = true ->
  forallb plain_char (chars value) = true ->
  parse_attributes (attributes +:+ ";" +:+ key +:+ "=" +:+ value) =
  Ok (<[key := value]> d).
Proof.
  unfold parse_attributes. intros H Hk Hv.
  destruct (map_result unpack_pair (map (split "=") (split ";" attributes)))
    as [pairs|] eqn:E; cbn [bind] in H; [|discriminate H].
  injection H as <-.
  assert (Htok : split "=" (key +:+ "=" +:+ value) = [key; value]).
  { unfold split. rewrite chars_app.
    change (chars ("=" +:+ value)) with ("="%char :: chars value).
    rewrite split_chars_first by (apply plain_chars_split; auto).
    rewrite split_chars_no_sep by (apply plain_chars_split; auto).
    simpl. now rewrite !str_chars. }
  assert (Hsplit : split ";" (attributes +:+ ";" +:+ key +:+ "=" +:+ value) =
                   (split ";" attributes ++ [key +:+ "=" +:+ value])%list).
  { unfold split. rewrite chars_app.
    change (chars (";" +:+ key +:+ "=" +:+ value))
      with (";"%char :: chars (key +:+ "=" +:+ value)).
    rewrite split_chars_app_last.
    - rewrite map_app. simpl. now rewrite str_chars.
    - rewrite chars_app. change (chars ("=" +:+ value)) with ("="%char :: chars value).
      rewrite forallb_app. simpl.
      rewrite !(plain_chars_split ";") by auto. reflexivity. }
  rewrite Hsplit, map_app, map_result_app, E. cbn [bind].
  simpl. rewrite Htok. cbn [bind unpack_pair].
  now rewrite dict_of_pairs_snoc.
Qed.

Lemma parse_attributes_append_witness :
  parse_attributes "ID=a;Name=n" = Ok {[ "ID" := "a"; "Name" := "n" ]} /\
  parse_attributes ("ID=a;Name=n" +:+ ";" +:+ "ID" +:+ "=" +:+ "b") =
  Ok (<["ID" := "b"]> {[ "ID" := "a"; "Name" := "n" ]}).
Proof.
  split; [reflexivity|].
  apply (parse_attributes_append "ID=a;Name=n" "ID" "b"); reflexivity.
Defined.

(** ** Witnesses of the parser properties *)

Lemma step_ignores_surrounding_whitespace_witness :
  forallb isspace (chars (String tab " ")) = true /\
  forallb isspace (chars (String (ascii_of_nat 13) nl)) = true /\
  step "gene" "ID" "x" fasta_state
    (String tab " " +:+ ">chrI" +:+ String (ascii_of_nat 13) nl) =
  step "gene" "ID" "x" fasta_state ">chrI".
Proof.
  split; [reflexivity|]. split; [reflexivity|].
  apply (step_ignores_surrounding_whitespace "gene" "ID" "x"); reflexivity.
Defined.

Lemma parse_gff3_features_in_order_witness :
  parse_gff3 "gene" "ID" "YAL069W"
    ([file_line "##gff-version 3"; gene_line "ID=other";
      gene_line "ID=YAL069W;Name=x"; gene_line "Name=y;ID=YAL069W"] ++
     [file_line "##FASTA"; file_line ">chrI"; file_line "ACGTACGT"]) =
    Ok ([("chrI", 2, 4, "-"); ("chrI", 2, 4, "-")], {[ "chrI" := ["ACGTACGT"] ]}) /\
  [("chrI", 2, 4, "-"); ("chrI", 2, 4, "-")] =
  omap (line_feature "gene" "ID" "YAL069W")
    [file_line "##gff-version 3"; gene_line "ID=other";
     gene_line "ID=YAL069W;Name=x"; gene_line "Name=y;ID=YAL069W"].
Proof.
  split; [reflexivity|].
  apply (parse_gff3_features_in_order "gene" "ID" "YAL069W"
           [file_line "##gff-version 3"; gene_line "ID=other";
            gene_line "ID=YAL069W;Name=x"; gene_line "Name=y;ID=YAL069W"]
           [file_line "##FASTA"; file_line ">chrI"; file_line "ACGTACGT"]
           _ {[ "chrI" := ["ACGTACGT"] ]}).
  - repeat constructor.
  - intros m Hm. injection Hm as <-. reflexivity.
  - reflexivity.
Defined.

Lemma parse_gff3_without_fasta_witness :
  (forall feats sequences,
      parse_gff3 "gene" "ID" "YAL069W" [gene_line "ID=YAL069W"; file_line ""] =
        Ok (feats, sequences) ->
      feats = [("chrI", 2, 4, "-")] /\ sequences = ∅) /\
  (forall e,
      parse_gff3 "gene" "ID" "YAL069W" [gene_line "ID=YAL069W"; file_line ""] =
        Raise e -> e = ValueError).
Proof.
  apply (parse_gff3_without_fasta "gene" "ID" "YAL069W"
           [gene_line "ID=YAL069W"; file_line ""]).
  repeat constructor.
Defined.

Lemma parse_gff3_exceptions_witness :
  parse_gff3 "gene" "ID" "x"
    ([gene_line "ID=y"] ++ file_line "##FASTA" :: [file_line ">"]) =
    Raise IndexError /\
  ((run "gene" "ID" "x" [gene_line "ID=y"] initial_state = Raise IndexError /\
    IndexError = ValueError) \/
   ((exists st, run "gene" "ID" "x" [gene_line "ID=y"] initial_state = Ok st) /\
    (IndexError = KeyError None \/ IndexError = IndexError))).
Proof.
  split; [reflexivity|].
  apply (parse_gff3_exceptions "gene" "ID" "x" [gene_line "ID=y"]
           [file_line ">"] (file_line "##FASTA") IndexError);
    [repeat constructor | reflexivity | reflexivity].
Defined.

Lemma parse_gff3_sequence_line_before_header_witness :
  is_header (file_line "") = false /\
  parse_gff3 "gene" "ID" "x"
    ([gene_line "ID=y"] ++ file_line "##FASTA" :: file_line "" :: [file_line ">chrI"]) =
  Raise (KeyError None).
Proof.
  split; [reflexivity|].
  eapply (parse_gff3_sequence_line_before_header "gene" "ID" "x" [gene_line "ID=y"]
            [file_line ">chrI"] (file_line "##FASTA") (file_line ""));
    [repeat constructor | reflexivity | reflexivity | reflexivity | reflexivity].
Defined.

Lemma step_header_without_identifier_witness :
  fasta_start fasta_state = true /\
  (step "gene" "ID" "x" fasta_state (file_line " >  ") = Raise IndexError <->
   strip (file_line " >  ") = ">").
Proof.
  split; [reflexivity|].
  apply (step_header_without_identifier "gene" "ID" "x" fasta_state). reflexivity.
Defined.

(** ** main *)

Lemma append_assoc (a b c : string) : (a +:+ b) +:+ c = a +:+ (b +:+ c).
Proof.
  induction a as [|x a IH]; [reflexivity|].
  now rewrite !append_cons, IH.
Qed.

Lemma prefix_append (p x : string) : String.prefix p (p +:+ x) = true.
Proof.
  induction p as [|c p IH]; [rewrite append_empty_l; destruct x; reflexivity|].
  rewrite append_cons.
  change (String.prefix (String c p) (String c (p +:+ x)))
    with (if ascii_dec c c then String.prefix p (p +:+ x) else false).
  destruct (ascii_dec c c); [exact IH | congruence].
Qed.

Lemma reverse_complement_error (s : string) (e : exn) :
  reverse_complement s = Raise e ->
  exists c, In c (chars s) /\ is_base c = false /\ e = KeyError (Some (String c "")).
Proof.
  intros H. destruct (forallb is_base (chars s)) eqn:Hb.
  - rewrite <- forallb_rev in Hb.
    destruct (map_complement_bases _ Hb) as (l' & E & _ & _).
    unfold reverse_complement in H. rewrite E in H. discriminate H.
  - rewrite <- forallb_rev in Hb.
    destruct (map_complement_first_bad _ Hb) as (c & Hin & Hc & E).
    exists c. repeat split; [now apply in_rev | assumption |].
    unfold reverse_complement in H. rewrite E in H. cbn [bind] in H. congruence.
Qed.

(** X14. Printing one feature can fail in two ways only, both a
    [KeyError]: the sequence identifier of the feature has no entry in the
    sequence map (the key is the identifier), or the feature is on the '-'
    strand and its slice holds a character outside of A, T, C and G (the key
    is that character). The formatting at the default width never fails. *)
Theorem feature_fasta_error (header : string)
    (sequence_data : gmap string (list string))
    (seqid : string) (start end_ : Z) (strand : string) (e : exn) :
  feature_fasta header sequence_data (seqid, start, end_, strand) = Raise e ->
  (sequence_data !! seqid = None /\ e = KeyError (Some seqid)) \/
  (exists lines c,
      sequence_data !! seqid = Some lines /\ strand = "-" /\
      In c (chars (py_slice (join "" lines) (start - 1) end_)) /\
      is_base c = false /\ e = KeyError (Some (String c ""))).
Proof.
  unfold feature_fasta, get_sequence. intros H.
  destruct (sequence_data !! seqid) as [lines|] eqn:Es.
  - right. destruct (String.eqb_spec strand "-") as [->|Hne].
    + destruct (reverse_complement _) as [r|e0] eqn:Er; cbn [bind] in H.
      * rewrite format_fasta_lines in H by (unfold default_line_length; lia).
        discriminate H.
      * injection H as <-.
        destruct (reverse_complement_error _ _ Er) as (c & Hin & Hc & ->).
        exists lines, c. auto.
    + cbn [bind] in H.
      rewrite format_fasta_lines in H by (unfold default_line_length; lia).
      discriminate H.
  - left. cbn [bind] in H. injection H as <-. auto.
Qed.

Lemma feature_fasta_error_witness :
  feature_fasta "gene:ID:x" example_sequences ("chrII", 2, 4, "+") =
    Raise (KeyError (Some "chrII")) /\
  ((example_sequences !! "chrII" = None /\
    KeyError (Some "chrII") = KeyError (Some "chrII")) \/
   (exists lines c,
       example_sequences !! "chrII" = Some lines /\ "+" = "-" /\
       In c (chars (py_slice (join "" lines) (2 - 1) 4)) /\
       is_base c = false /\ KeyError (Some "chrII") = KeyError (Some (String c "")))).
Proof.
  split; [reflexivity|].
  apply (feature_fasta_error "gene:ID:x" example_sequences "chrII" 2 4 "+").
  reflexivity.
Defined.

Lemma feature_fasta_prefix (header : string)
    (sequence_data : gmap string (list string)) (f : feature) (r : string) :
  feature_fasta header sequence_data f = Ok r ->
  startswith (">" +:+ header +:+ nl) r = true.
Proof.
  destruct f as [[[seqid start] end_] strand]. unfold feature_fasta. intros H.
  destruct (get_sequence _ _ _ _ _) as [sq|]; cbn [bind] in H; [|discriminate H].
  rewrite format_fasta_lines in H by (unfold default_line_length; lia).
  injection H as <-. unfold startswith.
  rewrite <- (append_assoc header nl), <- (append_assoc ">" (header +:+ nl)).
  rewrite <- (append_assoc ">" header nl).
  apply prefix_append.
Qed.

Lemma records_prefix (header : string)
    (sequence_data : gmap string (list string))
    (fs : list feature) (records : list string) :
  Forall2 (fun f r => feature_fasta header sequence_data f = Ok r) fs records ->
  Forall (fun r => startswith (">" +:+ header +:+ nl) r = true) records.
Proof.
  intros HF. induction HF as [|f1 r1 l1 l2 H1 HF IH]; constructor.
  - exact (feature_fasta_prefix _ _ _ _ H1).
  - exact IH.
Qed.

Lemma print_features_ok (header : string)
    (sequence_data : gmap string (list string)) (fs : list feature) :
  forall printed,
    print_features header sequence_data fs = (printed, None) ->
    Forall2 (fun f r => feature_fasta header sequence_data f = Ok r) fs printed.
Proof.
  induction fs as [|f fs IH]; intros printed H; simpl in H.
  - injection H as <-. constructor.
  - destruct (feature_fasta header sequence_data f) as [text|] eqn:Ef; [|discriminate H].
    destruct (print_features header sequence_data fs) as [out r].
    injection H as <- ->. constructor; [exact Ef | now apply IH].
Qed.

Lemma print_features_fail (header : string)
    (sequence_data : gmap string (list string))
    (fs1 fs2 : list feature) (f : feature) (records : list string) (e : exn) :
  Forall2 (fun f r => feature_fasta header sequence_data f = Ok r) fs1 records ->
  feature_fasta header sequence_data f = Raise e ->
  print_features header sequence_data (fs1 ++ f :: fs2) = (records, Some e).
Proof.
  intros HF Hf. induction HF as [|f1 r1 fs1 records Hf1 HF IH]; simpl.
  - now rewrite Hf.
  - now rewrite Hf1, IH.
Qed.

(** The branch of one feature does what the loop does on a list of one. *)
Lemma main_as_loop (lines : list string) (type_ attribute value : string)
    (fs : list feature) (sequence_data : gmap string (list string)) :
  parse_gff3 type_ attribute value lines = Ok (fs, sequence_data) ->
  fs <> [] ->
  main lines type_ attribute value =
  let '(printed, raised) :=
    print_features (fasta_header type_ attribute value) sequence_data fs in
  ((if (1 <? length fs)%nat then [many_features_warning type_ attribute value] else [])
     ++ printed, raised)%list.
Proof.
  intros H Hne. unfold main. rewrite H.
  destruct fs as [|f [|f' fs]]; [congruence | |].
  - simpl. destruct (feature_fasta _ _ f); reflexivity.
  - change (1 <? length (f :: f' :: fs))%nat with true.
    destruct (print_features _ _ (f :: f' :: fs)). reflexivity.
Qed.

(** X15. A run that ends without exception has printed either the single
    message that no feature was found, when the parse returned none, or one
    FASTA record per feature, in the order of the features, each starting
    with the same header line, preceded by one warning exactly when there is
    more than one feature. *)
Theorem main_prints_one_record_per_feature (lines : list string)
    (type_ attribute value : string)
    (fs : list feature) (sequence_data : gmap string (list string))
    (printed : list string) :
  parse_gff3 type_ attribute value lines = Ok (fs, sequence_data) ->
  main lines type_ attribute value = (printed, None) ->
  (fs = [] /\ printed = [no_features_message type_ attribute value]) \/
  (fs <> [] /\
   exists records,
     printed =
       ((if (1 <? length fs)%nat
         then [many_features_warning type_ attribute value] else []) ++ records)%list /\
     Forall2 (fun f r =>
                feature_fasta (fasta_header type_ attribute value) sequence_data f = Ok r)
             fs records /\
     Forall (fun r =>
               startswith (">" +:+ fasta_header type_ attribute value +:+ nl) r = true)
            records).
Proof.
  intros Hp Hm. destruct fs as [|f fs'] eqn:Efs.
  - left. unfold main in Hm. rewrite Hp in Hm. injection Hm as <-. auto.
  - right. split; [discriminate|].
    rewrite (main_as_loop _ _ _ _ _ _ Hp) in Hm by discriminate.
    destruct (print_features _ _ (f :: fs')) as [out r] eqn:Eprint.
    injection Hm as <- ->. exists out. split; [reflexivity|].
    pose proof (print_features_ok _ _ _ _ Eprint) as HF. split; [exact HF|].
    exact (records_prefix _ _ _ _ HF).
Qed.

Lemma main_prints_one_record_per_feature_witness :
  parse_gff3 "gene" "ID" "YAL069W"
    [gene_line "ID=YAL069W"; file_line "##FASTA"; file_line ">chrI";
     file_line "ACGTACGT"] =
    Ok ([("chrI", 2, 4, "-")], example_sequences) /\
  main [gene_line "ID=YAL069W"; file_line "##FASTA"; file_line ">chrI";
        file_line "ACGTACGT"] "gene" "ID" "YAL069W" =
    ([">gene:ID:YAL069W" +:+ nl +:+ "ACG"], None) /\
  exists records,
    [">gene:ID:YAL069W" +:+ nl +:+ "ACG"] = ([] ++ records)%list /\
    Forall (fun r => startswith (">" +:+ fasta_header "gene" "ID" "YAL069W" +:+ nl) r = true)
           records.
Proof.
  split; [reflexivity|]. split; [reflexivity|].
  destruct (main_prints_one_record_per_feature
              [gene_line "ID=YAL069W"; file_line "##FASTA"; file_line ">chrI";
               file_line "ACGTACGT"] "gene" "ID" "YAL069W"
              [("chrI", 2, 4, "-")] example_sequences
              [">gene:ID:YAL069W" +:+ nl +:+ "ACG"] eq_refl eq_refl)
    as [[Hnil _] | (_ & records & Hrec & _ & Hpre)]; [discriminate Hnil|].
  exists records. split; [exact Hrec | exact Hpre].
Defined.

(** X16. The records are printed as they are produced: when the features
    before some feature all print and that feature fails, the run has
    printed the warning (if there is more than one feature) and the records
    of the features before it, and ends with the exception of the failing
    feature; no later feature is looked at. *)
Theorem main_stops_at_first_failure (lines : list string)
    (type_ attribute value : string)
    (fs1 fs2 : list feature) (f : feature)
    (sequence_data : gmap string (list string))
    (records : list string) (e : exn) :
  parse_gff3 type_ attribute value lines = Ok ((fs1 ++ f :: fs2)%list, sequence_data) ->
  Forall2 (fun f r =>
             feature_fasta (fasta_header type_ attribute value) sequence_data f = Ok r)
          fs1 records ->
  feature_fasta (fasta_header type_ attribute value) sequence_data f = Raise e ->
  main lines type_ attribute value =
  (((if (1 <? length (fs1 ++ f :: fs2))%nat
     then [many_features_warning type_ attribute value] else []) ++ records)%list,
   Some e).
Proof.
  intros Hp HF Hf.
  rewrite (main_as_loop _ _ _ _ _ _ Hp) by (destruct fs1; discriminate).
  now rewrite (print_features_fail _ _ _ _ _ _ _ HF Hf).
Qed.

Lemma main_stops_at_first_failure_witness :
  feature_fasta (fasta_header "gene" "ID" "x") example_sequences ("chrII", 1, 2, "+") =
    Raise (KeyError (Some "chrII")) /\
  main [gene_x_line "chrI" "1" "2" "+"; gene_x_line "chrII" "1" "2" "+";
        gene_x_line "chrI" "3" "4" "+";
        file_line "##FASTA"; file_line ">chrI"; file_line "ACGTACGT"]
       "gene" "ID" "x" =
  ([many_features_warning "gene" "ID" "x"; ">gene:ID:x" +:+ nl +:+ "AC"],
   Some (KeyError (Some "chrII"))).
Proof.
  split; [reflexivity|].
  apply (main_stops_at_first_failure
           [gene_x_line "chrI" "1" "2" "+"; gene_x_line "chrII" "1" "2" "+";
            gene_x_line "chrI" "3" "4" "+";
            file_line "##FASTA"; file_line ">chrI"; file_line "ACGTACGT"]
           "gene" "ID" "x"
           [("chrI", 1, 2, "+")] [("chrI", 3, 4, "+")] ("chrII", 1, 2, "+")
           example_sequences [">gene:ID:x" +:+ nl +:+ "AC"] (KeyError (Some "chrII")));
    [reflexivity | repeat constructor | reflexivity].
Defined.

Example main_no_features :
  main [gene_line "ID=other"] "gene" "ID" "x" =
  (["No features found for gene:ID=x"], None).
Proof. reflexivity. Qed.

Example main_two_features :
  main [gene_line "ID=x"; gene_line "ID=x"; file_line "##FASTA";
        file_line ">chrI"; file_line "ACGTACGT"] "gene" "ID" "x" =
  (["Warning: More than one feature found for gene:ID=x";
    ">gene:ID:x" +:+ nl +:+ "ACG"; ">gene:ID:x" +:+ nl +:+ "ACG"], None).
Proof. reflexivity. Qed.

(** ** parse_gff3: the identifiers of the sequence map *)

Section SequenceMapKeys.

Variables feature_type attribute_key attribute_value : string.

Abbreviation step' := (step feature_type attribute_key attribute_value).
Abbreviation run' := (run feature_type attribute_key attribute_value).

Lemma marker_no_header_id (raw : string) : is_marker raw = true -> header_id raw = None.
Proof.
  intros Hm. unfold header_id. destruct (is_header raw) eqn:Eh; [|reflexivity].
  apply header_not_marker in Eh. congruence.
Qed.

Lemma step_fasta_keys (st st' : state) (raw id : string) :
  fasta_start st = true -> step' st raw = Ok st' ->
  (is_Some (sequence_data st' !! id) <->
   is_Some (sequence_data st !! id) \/ header_id raw = Some id).
Proof.
  intros Hf H. destruct (is_marker raw) eqn:Em.
  - rewrite step_marker in H by assumption. injection H as <-. simpl.
    rewrite (marker_no_header_id _ Em). split; [auto | now intros [?|?]].
  - rewrite step_fasta in H by assumption. unfold fasta_line in H.
    unfold header_id, is_header.
    destruct (startswith ">" (strip raw)).
    + destruct (split_ws _) as [|id0 ?]; [discriminate H|].
      injection H as <-. simpl.
      destruct (decide (id0 = id)) as [->|Hne].
      * rewrite lookup_insert_eq. split; [auto | now eexists].
      * rewrite lookup_insert_ne by assumption.
        split; [auto | intros [?|?]; [assumption | congruence]].
    + destruct (current_sequence_id st) as [c|]; [|discriminate H].
      destruct (sequence_data st !! c) as [acc|] eqn:Ec; [|discriminate H].
      injection H as <-. simpl.
      destruct (decide (c = id)) as [->|Hne].
      * rewrite lookup_insert_eq, Ec. split; [auto | now eexists].
      * rewrite lookup_insert_ne by assumption.
        split; [auto | now intros [?|?]].
Qed.

Lemma run_fasta_keys (lines : list string) (id : string) :
  forall (st st' : state),
    fasta_start st = true -> run' lines st = Ok st' ->
    (is_Some (sequence_data st' !! id) <->
     is_Some (sequence_data st !! id) \/
     exists raw, In raw lines /\ header_id raw = Some id).
Proof.
  induction lines as [|raw lines IH]; intros st st' Hf H.
  - rewrite run_nil in H. injection H as <-.
    split; [auto | intros [?|(? & [] & _)]; assumption].
  - rewrite run_cons in H.
    destruct (step' st raw) as [st1|] eqn:E1; cbn [bind] in H; [|discriminate H].
    assert (Hf1 : fasta_start st1 = true).
    { rewrite (step_fasta_start _ _ _ _ _ _ E1), Hf. apply orb_true_r. }
    rewrite (IH st1 st' Hf1 H), (step_fasta_keys _ _ _ id Hf E1).
    split.
    + intros [[?|?]|(r & Hin & Hr)]; [now left | right | right].
      * exists raw. split; [now left | assumption].
      * exists r. split; [now right | assumption].
    + intros [?|(r & [<-|Hin] & Hr)]; [now left; left | now left; right | right].
      exists r. now split.
Qed.

(** X17. The identifiers of the sequence map are exactly the identifiers of
    the header lines that follow the first '##FASTA' line: no entry is ever
    removed, and none is made for anything but a header. *)
Theorem parse_gff3_sequence_ids (ann rest : list string) (m id : string)
    (feats : list feature) (sequences : gmap string (list string)) :
  Forall (fun raw => is_marker raw = false) ann ->
  is_marker m = true ->
  parse_gff3 feature_type attribute_key attribute_value (ann ++ m :: rest) =
    Ok (feats, sequences) ->
  (is_Some (sequences !! id) <->
   exists raw, In raw rest /\ header_id raw = Some id).
Proof.
  intros Hann Hm H. unfold parse_gff3 in H. rewrite run_app in H.
  destruct (run' ann initial_state) as [st1|] eqn:E1; cbn [bind] in H; [|discriminate H].
  destruct (run_annotation _ _ _ ann initial_state st1 eq_refl Hann E1)
    as (_ & _ & S1 & _).
  rewrite run_cons, step_marker in H by assumption. cbn [bind] in H.
  match type of H with
  | context [run' rest ?s] => destruct (run' rest s) as [st2|] eqn:E2
  end; cbn [bind] in H; [|discriminate H].
  injection H as _ <-.
  apply (run_fasta_keys rest id) in E2; [|reflexivity].
  rewrite E2. simpl. rewrite S1.
  split; [intros [[x Hx]|?]; [discriminate Hx | assumption] | auto].
Qed.

End SequenceMapKeys.

Lemma parse_gff3_sequence_ids_witness :
  parse_gff3 "gene" "ID" "x"
    ([gene_line "ID=x"] ++ file_line "##FASTA" ::
     [file_line ">chrI one"; file_line "ACGT"; file_line ">chrII"]) =
    Ok ([("chrI", 2, 4, "-")], {[ "chrI" := ["ACGT"]; "chrII" := [] ]}) /\
  (is_Some (({[ "chrI" := ["ACGT"]; "chrII" := [] ]} : gmap string (list string)) !! "chrII") <->
   exists raw,
     In raw [file_line ">chrI one"; file_line "ACGT"; file_line ">chrII"] /\
     header_id raw = Some "chrII").
Proof.
  split; [reflexivity|].
  apply (parse_gff3_sequence_ids "gene" "ID" "x" [gene_line "ID=x"]
           [file_line ">chrI one"; file_line "ACGT"; file_line ">chrII"]
           (file_line "##FASTA") "chrII" [("chrI", 2, 4, "-")]);
    [repeat constructor | reflexivity | reflexivity].
Defined.

(** ** int on the coordinates *)

Example py_int_plain : py_int "1234" = Ok 1234 /\ py_int " -12 " = Ok (-12).
Proof. split; reflexivity. Qed.

Example py_int_separators_refused :
  py_int (String (ascii_of_nat 28) "5") = Raise ValueError /\
  py_int ("5" +:+ String (ascii_of_nat 31) "") = Raise ValueError /\
  strip (String (ascii_of_nat 28) "5") = "5".
Proof. repeat split. Qed.

Example py_int_other_whitespace :
  py_int (String (ascii_of_nat 133) "5") = Ok 5 /\
  py_int ("5" +:+ String (ascii_of_nat 160) "") = Ok 5 /\
  py_int (String tab "5" +:+ nl) = Ok 5.
Proof. repeat split. Qed.

Example py_int_underscores :
  py_int "1_000" = Ok 1000 /\ py_int "1__0" = Raise ValueError /\
  py_int "_1" = Raise ValueError /\ py_int "1_" = Raise ValueError /\
  py_int "" = Raise ValueError /\ py_int "- 1" = Raise ValueError.
Proof. repeat split. Qed.

Example py_int_digit_limit :
  py_int (str (repeat "0"%char 4300)) = Ok 0 /\
  py_int (str (repeat "0"%char 4301)) = Raise ValueError /\
  py_int (String "-" (str (repeat "0"%char 4300))) = Ok 0.
Proof. vm_compute. repeat split. Qed.
